(** * career_mgmt: the resume analyzer and the upload parser

    A shallow embedding of [src/resume_analyzer/resume_analyzer.py]
    (class [ResumeAnalyzer]) and of [parse_contents] in [pages/home.py].

    Python text is a sequence of Unicode code points, file contents are
    bytes.  The filesystem, the requests sent to the chat service and the
    document readers that were invoked are the state of a small
    state-and-exception monad.  The behaviour of the third-party
    libraries (pdfplumber, PyPDF2, python-docx, base64, the chat client
    with the JSON loader) is a record of functions, [Libs], over which
    every statement is quantified. *)

From Stdlib Require Import ZArith NArith List Ascii String Lia.
From Stdlib Require Import Floats.SpecFloat.
From stdpp Require Import base option list gmap strings pretty.

Local Open Scope N_scope.
Set Warnings "-register-all".

(* ===================================================================== *)
(** ** Text and bytes *)
(* ===================================================================== *)

(** A Python [str]: its code points. *)
Abbreviation pystr := (list N).

(** A Python [bytes]. *)
Abbreviation pybytes := (list Byte.byte).

(** The code points of an ASCII literal of the source. *)
Definition lit (x : string) : pystr :=
  List.map Byte.to_N (list_byte_of_string x).

Definition NL : N := 10.
Definition CR : N := 13.

(** [str.isspace] on one character: the Unicode characters that are
    whitespace for [str.strip()]. *)
Definition py_isspace (c : N) : bool :=
  ((9 <=? c) && (c <=? 13)) || ((28 <=? c) && (c <=? 32))
  || (c =? 133) || (c =? 160) || (c =? 5760)
  || ((8192 <=? c) && (c <=? 8202))
  || (c =? 8232) || (c =? 8233) || (c =? 8239) || (c =? 8287)
  || (c =? 12288).

Fixpoint lstrip (t : pystr) : pystr :=
  match t with
  | c :: t' => if py_isspace c then lstrip t' else t
  | [] => []
  end.

Definition rstrip (t : pystr) : pystr := rev (lstrip (rev t)).

(** [t.strip()] *)
Definition strip (t : pystr) : pystr := rstrip (lstrip t).

(** [not t.strip()]: an empty [str] is falsy. *)
Definition blank (t : pystr) : bool :=
  match strip t with [] => true | _ => false end.

(** [sep.join(parts)] *)
Fixpoint join (sep : pystr) (parts : list pystr) : pystr :=
  match parts with
  | [] => []
  | [p] => p
  | p :: ps => p ++ sep ++ join sep ps
  end.

(** [t.endswith(suffix)] *)
Definition endswith (t suffix : pystr) : bool :=
  bool_decide (drop (length t - length suffix)%nat t = suffix).

(** [t.lower()] on the ASCII range.  Outside ASCII [str.lower] follows
    the Unicode tables; no character outside ASCII lowers to a letter of
    the suffixes the extractor compares with. *)
Definition lower_char (c : N) : N :=
  if (65 <=? c) && (c <=? 90) then c + 32 else c.

Definition lower (t : pystr) : pystr := List.map lower_char t.

(** *** Decoding *)

(** [bytes.decode('latin-1')]: every byte is the code point of its value. *)
Definition decode_latin1 (b : pybytes) : pystr := List.map Byte.to_N b.

(** The strict UTF-8 decoder of Python, as an automaton over the bytes:
    [need] continuation bytes are still expected for the code point
    accumulated in [acc], and the next continuation byte has to lie in
    [lo, hi] (which excludes overlong forms, surrogates and code points
    above U+10FFFF). *)
Fixpoint utf8_go (b : list N) (need : nat) (acc lo hi : N) : option pystr :=
  match b with
  | [] => match need with O => Some [] | S _ => None end
  | x :: b' =>
      match need with
      | S k =>
          if (lo <=? x) && (x <=? hi) then
            let acc' := acc * 64 + (x - 128) in
            match k with
            | O => option_map (cons acc') (utf8_go b' O 0 128 191)
            | S _ => utf8_go b' k acc' 128 191
            end
          else None
      | O =>
          if x <? 128 then option_map (cons x) (utf8_go b' O 0 128 191)
          else if (194 <=? x) && (x <=? 223) then utf8_go b' 1 (x - 192) 128 191
          else if x =? 224 then utf8_go b' 2 (x - 224) 160 191
          else if x =? 237 then utf8_go b' 2 (x - 224) 128 159
          else if (225 <=? x) && (x <=? 239) then utf8_go b' 2 (x - 224) 128 191
          else if x =? 240 then utf8_go b' 3 (x - 240) 144 191
          else if x =? 244 then utf8_go b' 3 (x - 240) 128 143
          else if (241 <=? x) && (x <=? 243) then utf8_go b' 3 (x - 240) 128 191
          else None
      end
  end.

(** [bytes.decode('utf-8')]; [None] is [UnicodeDecodeError]. *)
Definition decode_utf8 (b : pybytes) : option pystr :=
  utf8_go (List.map Byte.to_N b) O 0 128 191.

(** Universal newlines: a file opened in text mode with the default
    [newline=None] hands CR LF and a lone CR to the reader as LF. *)
Fixpoint universal_newlines (t : pystr) : pystr :=
  match t with
  | [] => []
  | c :: t' =>
      if c =? CR then
        match t' with
        | d :: t'' => if d =? NL then NL :: universal_newlines t''
                      else NL :: universal_newlines t'
        | [] => [NL]
        end
      else c :: universal_newlines t'
  end.

(** [t.split(sep)] for a one-character separator. *)
Fixpoint split_on (sep : N) (t : pystr) : list pystr :=
  match t with
  | [] => [[]]
  | c :: t' =>
      if c =? sep then [] :: split_on sep t'
      else match split_on sep t' with
           | p :: ps => (c :: p) :: ps
           | [] => [[c]]
           end
  end.

(* ===================================================================== *)
(** ** Exceptions *)
(* ===================================================================== *)

(** The exception classes that occur.  All of them derive from
    [Exception], so [except Exception] catches every one. *)
Inductive exn_class :=
  | Exception_            (* raise Exception(...) *)
  | ValueError
  | TypeError
  | AttributeError
  | FileNotFoundError
  | IsADirectoryError
  | UnicodeDecodeError
  | LibraryError.         (* an exception class of a third-party library *)

#[global] Instance exn_class_eq_dec : EqDecision exn_class.
Proof. solve_decision. Defined.

(** An exception: its class and [str(e)]. *)
Record exn := mkExn { exn_cls : exn_class; exn_str : pystr }.

(* ===================================================================== *)
(** ** JSON values, as [json.loads] hands them to the program *)
(* ===================================================================== *)

(** A [dict] keeps insertion order, which [', '.join] over a dict
    observes, so it is an association list. *)
Inductive json :=
  | JNull
  | JBool (b : bool)
  | JInt (n : Z)
  | JFloat (f : spec_float)
  | JStr (t : pystr)
  | JList (l : list json)
  | JDict (d : list (pystr * json)).

(** [type(v).__name__] *)
Definition type_name (v : json) : pystr :=
  match v with
  | JNull => lit "NoneType"
  | JBool _ => lit "bool"
  | JInt _ => lit "int"
  | JFloat _ => lit "float"
  | JStr _ => lit "str"
  | JList _ => lit "list"
  | JDict _ => lit "dict"
  end.

(** [d[k]] if present *)
Fixpoint dict_lookup (d : list (pystr * json)) (k : pystr) : option json :=
  match d with
  | [] => None
  | (k', v) :: d' => if bool_decide (k' = k) then Some v else dict_lookup d' k
  end.

(** [d.get(k, default)] on a dict *)
Definition dict_get (d : list (pystr * json)) (k : pystr) (default : json) : json :=
  match dict_lookup d k with
  | Some v => v
  | None => default
  end.

(** [v.get(k, default)] on whatever the loader returned: only a dict has
    the method. *)
Definition py_get (v : json) (k : pystr) (default : json) : exn + json :=
  match v with
  | JDict d => inr (dict_get d k default)
  | _ => inl (mkExn AttributeError
                (lit "'" ++ type_name v ++ lit "' object has no attribute 'get'"))
  end.

(** Truth value of a JSON value in an [if]. *)
Definition truthy (v : json) : bool :=
  match v with
  | JNull => false
  | JBool b => b
  | JInt n => negb (n =? 0)%Z
  | JFloat f => match f with S754_zero _ => false | _ => true end
  | JStr t => match t with [] => false | _ => true end
  | JList l => match l with [] => false | _ => true end
  | JDict d => match d with [] => false | _ => true end
  end.

(** The items of [', '.join(l)] for a list [l]: every item has to be a
    [str]; [i] is the index of the first item. *)
Fixpoint str_items (l : list json) (i : nat) : exn + list pystr :=
  match l with
  | [] => inr []
  | JStr t :: l' =>
      match str_items l' (S i) with
      | inr ts => inr (t :: ts)
      | inl e => inl e
      end
  | v :: _ =>
      inl (mkExn TypeError
             (lit "sequence item " ++ lit (pretty i)
              ++ lit ": expected str instance, " ++ type_name v ++ lit " found"))
  end.

(** [', '.join(v)]: a list of strings, the characters of a string or the
    keys of a dict; anything else is not iterable. *)
Definition join_comma (v : json) : exn + pystr :=
  match v with
  | JList l =>
      match str_items l 0 with
      | inr ts => inr (join (lit ", ") ts)
      | inl e => inl e
      end
  | JStr t => inr (join (lit ", ") (List.map (fun c => [c]) t))
  | JDict d => inr (join (lit ", ") (List.map fst d))
  | _ => inl (mkExn TypeError (lit "can only join an iterable"))
  end.

(* ===================================================================== *)
(** ** The world: filesystem, remote requests, library invocations *)
(* ===================================================================== *)

Inductive node :=
  | File (content : pybytes)
  | Dir.

(** The three prompts of the analyzer.  A prompt is a fixed template
    (an f-string) with the job description, the resume and, for the
    recommendations, the rendered missing skills interpolated; a request
    is represented by its template and the interpolated values. *)
Inductive step := ScoreStep | SkillsStep | RecommendStep.

#[global] Instance step_eq_dec : EqDecision step.
Proof. solve_decision. Defined.

Record request := mkRequest {
  rq_step : step;
  rq_job : pystr;               (* {job_description} *)
  rq_resume : pystr;            (* {resume} *)
  rq_missing : option pystr     (* the line under MISSING SKILLS: *)
}.

(** [temperature=] of the request, in tenths. *)
Definition temperature_tenths (s : step) : nat :=
  match s with
  | ScoreStep => 3
  | SkillsStep => 3
  | RecommendStep => 4
  end.

(** The document readers the extractor can hand a file to. *)
Inductive strategy :=
  | ReadText (encoding : string)   (* open(path, 'r', encoding=...) *)
  | Pdfplumber                     (* pdfplumber.open(path) *)
  | PyPDF2                         (* PyPDF2.PdfReader(open(path, 'rb')) *)
  | Docx.                          (* docx.Document(path) *)

(** Console output is not part of the state: no statement below is about
    what is printed. *)
Record world := mkWorld {
  fs : gmap pystr node;                 (* path, as written, to its node *)
  sent : list request;                  (* requests issued, oldest first *)
  attempts : list (strategy * pystr)    (* readers invoked, oldest first *)
}.

(** [os.path.exists(p)]: false for the empty path and for a path with an
    embedded NUL, which the system call refuses. *)
Definition valid_path (p : pystr) : bool :=
  negb (bool_decide (p = [])) && negb (existsb (N.eqb 0) p).

Definition exists_ (p : pystr) (w : world) : bool :=
  valid_path p && bool_decide (is_Some (fs w !! p)).

(** [os.path.isfile(p)] *)
Definition isfile (p : pystr) (w : world) : bool :=
  valid_path p &&
  match fs w !! p with
  | Some (File _) => true
  | _ => false
  end.

(** ** The behaviour of the libraries *)

(** A [.docx] document as python-docx presents it: [doc.paragraphs] with
    their [.text], and [doc.tables] with [.rows], [.cells] and [.text]. *)
Record docx := mkDocx {
  paragraphs : list pystr;
  tables : list (list (list pystr))
}.

Record Libs := mkLibs {
  (** [pdfplumber.open(path).pages] for a file of these bytes, each page
      with what [page.extract_text()] does: raise, return [None] or
      return text. *)
  pdfplumber_open : pybytes -> exn + list (exn + option pystr);
  (** [PyPDF2.PdfReader(file).pages], each page with what
      [page.extract_text()] does. *)
  PdfReader : pybytes -> exn + list (exn + pystr);
  (** [docx.Document(path)] *)
  Document : pybytes -> exn + docx;
  (** [base64.b64decode(s)] *)
  b64decode : pystr -> exn + pybytes;
  (** [json.loads(client.chat.completions.create(...).choices[0].message.content)]
      for a request, given the requests issued before it: the value
      loaded, or the exception that the call, the indexing or the loader
      raises. *)
  chat_json : list request -> request -> exn + json
}.

(* ===================================================================== *)
(** ** A state and exception monad *)
(* ===================================================================== *)

Inductive outcome (A : Type) :=
  | Ok (a : A)
  | Raise (e : exn).
Arguments Ok {A} a.
Arguments Raise {A} e.

Definition M (A : Type) : Type := world -> outcome A * world.

Definition ret {A} (a : A) : M A := fun w => (Ok a, w).

Definition raise {A} (e : exn) : M A := fun w => (Raise e, w).

Definition bind {A B} (m : M A) (k : A -> M B) : M B :=
  fun w =>
    match m w with
    | (Ok a, w') => k a w'
    | (Raise e, w') => (Raise e, w')
    end.

(** [try: m  except Exception as e: h e] *)
Definition try_except {A} (m : M A) (h : exn -> M A) : M A :=
  fun w =>
    match m w with
    | (Ok a, w') => (Ok a, w')
    | (Raise e, w') => h e w'
    end.

(** [try: m  except cls as e: h e]: other classes pass through.  The
    classes caught by name in the source have no subclass here. *)
Definition try_except_cls {A} (cls : exn_class) (m : M A) (h : exn -> M A) : M A :=
  fun w =>
    match m w with
    | (Ok a, w') => (Ok a, w')
    | (Raise e, w') =>
        if bool_decide (exn_cls e = cls) then h e w' else (Raise e, w')
    end.

(** The result of a library call enters the monad. *)
Definition lift {A} (r : exn + A) : M A :=
  match r with
  | inr a => ret a
  | inl e => raise e
  end.

Declare Scope py_scope.
Delimit Scope py_scope with py.
Notation "x <- m ;; k" := (bind m (fun x => k))
  (at level 100, m at next level, right associativity) : py_scope.
Notation "m ;;; k" := (bind m (fun _ => k))
  (at level 100, right associativity) : py_scope.
Local Open Scope py_scope.

(** *** Primitive actions *)

Definition note (s : strategy) (path : pystr) : M unit :=
  fun w => (Ok tt, mkWorld (fs w) (sent w) (attempts w ++ [(s, path)])).

(** The bytes of a file opened for reading. *)
Definition read_bytes (path : pystr) : M pybytes :=
  fun w =>
    if valid_path path then
      match fs w !! path with
      | Some (File b) => (Ok b, w)
      | Some Dir =>
          (Raise (mkExn IsADirectoryError
                    (lit "[Errno 21] Is a directory: '" ++ path ++ lit "'")), w)
      | None =>
          (Raise (mkExn FileNotFoundError
                    (lit "[Errno 2] No such file or directory: '" ++ path ++ lit "'")), w)
      end
    else (Raise (mkExn ValueError (lit "embedded null byte")), w).

(** [t.lstrip(c)] for one character. *)
Fixpoint lstrip_char (c : N) (t : pystr) : pystr :=
  match t with
  | x :: t' => if x =? c then lstrip_char c t' else t
  | [] => []
  end.

(** [os.path.dirname(path)]: up to the last slash, without trailing
    slashes unless there is nothing else. *)
Definition dirname (path : pystr) : pystr :=
  match split_on 47 path with
  | [] | [_] => []
  | parts =>
      let head := join [47] (removelast parts) ++ [47] in
      if forallb (N.eqb 47) head then head
      else rev (lstrip_char 47 (rev head))
  end.

(** [with open(path, 'wb') as f: f.write(b)]: the directory has to exist
    (the current directory does) and the path must not be a directory.
    The filesystem is keyed by the path as it is written: the file is
    stored under [path] itself and [..] or other aliases of a path are
    not resolved, so statements about written files are about the very
    path that was written. *)
Definition write_bytes (path : pystr) (b : pybytes) : M unit :=
  fun w =>
    let dir_ok :=
      match dirname path with
      | [] => true
      | d => match fs w !! d with Some Dir => true | _ => false end
      end in
    if valid_path path && dir_ok then
      match fs w !! path with
      | Some Dir =>
          (Raise (mkExn IsADirectoryError
                    (lit "[Errno 21] Is a directory: '" ++ path ++ lit "'")), w)
      | _ => (Ok tt, mkWorld (<[path := File b]> (fs w)) (sent w) (attempts w))
      end
    else
      (Raise (mkExn FileNotFoundError
                (lit "[Errno 2] No such file or directory: '" ++ path ++ lit "'")), w).

(** [os.remove(path)] *)
Definition remove (path : pystr) : M unit :=
  fun w =>
    match fs w !! path with
    | Some (File _) =>
        (Ok tt, mkWorld (delete path (fs w)) (sent w) (attempts w))
    | Some Dir =>
        (Raise (mkExn IsADirectoryError
                  (lit "[Errno 21] Is a directory: '" ++ path ++ lit "'")), w)
    | None =>
        (Raise (mkExn FileNotFoundError
                  (lit "[Errno 2] No such file or directory: '" ++ path ++ lit "'")), w)
    end.

(** [Path(path).name]: the last component, empty components and [.]
    being dropped by [pathlib]. *)
Definition path_name (path : pystr) : pystr :=
  List.last
    (List.filter (fun c => negb (bool_decide (c = []) || bool_decide (c = [46])))
       (split_on 47 path))
    [].

(** [Path(path).suffix]: from the last dot of the name, unless that dot
    is the first or the last character of the name
    ([i = name.rfind('.')], [0 < i < len(name) - 1]). *)
Definition suffix (path : pystr) : pystr :=
  let name := path_name path in
  match rev (split_on 46 name) with
  | ext :: _ :: _ =>
      if bool_decide (ext = []) || bool_decide (length name = S (length ext))
      then []
      else 46 :: ext
  | _ => []
  end.

(* ===================================================================== *)
(** ** class ResumeAnalyzer *)
(* ===================================================================== *)

(** The loop of the first PDF method over [pdf.pages]:
    [page_text = page.extract_text()], and [text += page_text + "\n"]
    when [page_text] is truthy.  The loop runs inside a [try] whose
    handler keeps what [text] holds when a page raises, so the text
    comes back together with the exception. *)
Fixpoint plumber_pages (pages : list (exn + option pystr)) (text : pystr)
  : pystr * option exn :=
  match pages with
  | [] => (text, None)
  | inl e :: _ => (text, Some e)
  | inr None :: ps => plumber_pages ps text
  | inr (Some []) :: ps => plumber_pages ps text
  | inr (Some t) :: ps => plumber_pages ps (text ++ t ++ [NL])
  end.

(** The loop of the second PDF method:
    [text += page.extract_text() + "\n"] for every page. *)
Fixpoint pypdf_pages (pages : list (exn + pystr)) (text : pystr) : exn + pystr :=
  match pages with
  | [] => inr text
  | inl e :: _ => inl e
  | inr t :: ps => pypdf_pages ps (text ++ t ++ [NL])
  end.

(** The two loops of [_extract_from_docx], appending to the list [text]. *)
Fixpoint docx_paragraphs (ps : list pystr) (text : list pystr) : list pystr :=
  match ps with
  | [] => text
  | p :: ps' => docx_paragraphs ps' (if blank p then text else text ++ [p])
  end.

Fixpoint docx_cells (cells : list pystr) (text : list pystr) : list pystr :=
  match cells with
  | [] => text
  | c :: cells' => docx_cells cells' (if blank c then text else text ++ [c])
  end.

Fixpoint docx_rows (rows : list (list pystr)) (text : list pystr) : list pystr :=
  match rows with
  | [] => text
  | r :: rows' => docx_rows rows' (docx_cells r text)
  end.

Fixpoint docx_tables (ts : list (list (list pystr))) (text : list pystr) : list pystr :=
  match ts with
  | [] => text
  | t :: ts' => docx_tables ts' (docx_rows t text)
  end.

Definition legacy_doc_message : pystr :=
  lit "Legacy .doc format is not supported. Please convert your file to .docx format using Microsoft Word or a free converter.".

(** The keys of the dict that [analyze] returns. *)
Definition result_keys : gset string :=
  {[ "similarity_score"; "overall_match"; "key_strengths"; "analysis_summary";
     "matching_skills"; "missing_skills"; "partial_matches"; "recommendations" ]}.

Section Analyzer.

Variable lib : Libs.

(** [open(path, 'r', encoding=...).read()].  The message of the decoding
    error is abbreviated; the program never shows it. *)
Definition read_text (encoding : string) (decode : pybytes -> option pystr)
    (path : pystr) : M pystr :=
  note (ReadText encoding) path ;;;
  b <- read_bytes path ;;
  match decode b with
  | Some t => ret (universal_newlines t)
  | None =>
      raise (mkExn UnicodeDecodeError
               (lit "'" ++ lit encoding ++ lit "' codec can't decode bytes"))
  end.

Definition _extract_from_txt (path : pystr) : M pystr :=
  try_except_cls UnicodeDecodeError
    (read_text "utf-8" decode_utf8 path)
    (fun _ => read_text "latin-1" (fun b => Some (decode_latin1 b)) path).

(** Method 1 of [_extract_from_pdf], up to the end of the [with] block:
    the text accumulated, and the exception if one was raised. *)
Definition pdf_method1 (path : pystr) : M (pystr * option exn) :=
  fun w =>
    match (note Pdfplumber path ;;;
           b <- read_bytes path ;;
           lift (pdfplumber_open lib b)) w with
    | (Ok pages, w') => (Ok (plumber_pages pages []), w')
    | (Raise e, w') => (Ok ([], Some e), w')
    end.

(** Method 2, which goes on appending to the same [text]. *)
Definition pdf_method2 (path : pystr) (text : pystr) : M pystr :=
  try_except
    (note PyPDF2 path ;;;
     b <- read_bytes path ;;
     pages <- lift (PdfReader lib b) ;;
     text' <- lift (pypdf_pages pages text) ;;
     if negb (blank text') then ret text'
     else raise (mkExn Exception_ (lit "No text could be extracted from PDF")))
    (fun e => raise (mkExn Exception_
                       (lit "Failed to extract text from PDF: " ++ exn_str e))).

Definition _extract_from_pdf (path : pystr) : M pystr :=
  r <- pdf_method1 path ;;
  match r with
  | (text, None) =>
      if negb (blank text) then ret text else pdf_method2 path text
  | (text, Some _) => pdf_method2 path text
  end.

Definition _extract_from_docx (path : pystr) : M pystr :=
  try_except
    (note Docx path ;;;
     b <- read_bytes path ;;
     doc <- lift (Document lib b) ;;
     let text := docx_paragraphs (paragraphs doc) [] in
     let text := docx_tables (tables doc) text in
     ret (join [NL] text))
    (fun e => raise (mkExn Exception_
                       (lit "Failed to extract text from DOCX: " ++ exn_str e))).

Definition extract_text_from_file (path : pystr) : M pystr :=
  fun w =>
    if negb (exists_ path w) then
      (Raise (mkExn FileNotFoundError (lit "File not found: " ++ path)), w)
    else
      let file_extension := lower (suffix path) in
      if bool_decide (file_extension = lit ".doc") then
        (Raise (mkExn Exception_ legacy_doc_message), w)
      else
        try_except
          (if bool_decide (file_extension = lit ".pdf") then _extract_from_pdf path
           else if bool_decide (file_extension = lit ".docx") then _extract_from_docx path
           else if bool_decide (file_extension = lit ".txt")
                   || bool_decide (file_extension = lit ".text")
                then _extract_from_txt path
           else _extract_from_txt path)
          (fun e => raise (mkExn Exception_
                             (lit "Error reading file " ++ path ++ lit ": " ++ exn_str e)))
          w.

(** [self.client.chat.completions.create(...)] followed by [json.loads]
    on the content of the reply. *)
Definition ask (rq : request) : M json :=
  fun w =>
    (match chat_json lib (sent w) rq with
     | inr v => Ok v
     | inl e => Raise e
     end,
     mkWorld (fs w) (sent w ++ [rq]) (attempts w)).

Definition calculate_similarity_score (job_description resume : pystr) : M json :=
  try_except
    (ask (mkRequest ScoreStep job_description resume None))
    (fun e => raise (mkExn Exception_
                       (lit "Error calculating similarity score: " ++ exn_str e))).

Definition extract_skills (job_description resume : pystr) : M json :=
  try_except
    (ask (mkRequest SkillsStep job_description resume None))
    (fun e => raise (mkExn Exception_
                       (lit "Error extracting skills: " ++ exn_str e))).

(** [', '.join(missing_skills) if missing_skills else 'None identified'] *)
Definition render_missing (missing_skills : json) : exn + pystr :=
  if truthy missing_skills then join_comma missing_skills
  else inr (lit "None identified").

(** The prompt is built before the [try], so an exception of the join
    leaves the method as it is. *)
Definition generate_recommendations (job_description resume : pystr)
    (missing_skills : json) : M json :=
  rendered <- lift (render_missing missing_skills) ;;
  try_except
    (result <- ask (mkRequest RecommendStep job_description resume (Some rendered)) ;;
     lift (py_get result (lit "recommendations") (JList [])))
    (fun e => raise (mkExn Exception_
                       (lit "Error generating recommendations: " ++ exn_str e))).

(** The dict literal at the end of [analyze]; its values are evaluated
    in the order written. *)
Definition compile_results (similarity_result skills_result recommendations : json)
  : M (gmap string json) :=
  v1 <- lift (py_get similarity_result (lit "similarity_score") (JInt 0)) ;;
  v2 <- lift (py_get similarity_result (lit "overall_match") (JStr (lit "Unknown"))) ;;
  v3 <- lift (py_get similarity_result (lit "key_strengths") (JList [])) ;;
  v4 <- lift (py_get similarity_result (lit "analysis_summary") (JStr [])) ;;
  v5 <- lift (py_get skills_result (lit "matching_skills") (JList [])) ;;
  v6 <- lift (py_get skills_result (lit "missing_skills") (JList [])) ;;
  v7 <- lift (py_get skills_result (lit "partial_matches") (JList [])) ;;
  ret (<["similarity_score" := v1]> (<["overall_match" := v2]>
      (<["key_strengths" := v3]> (<["analysis_summary" := v4]>
      (<["matching_skills" := v5]> (<["missing_skills" := v6]>
      (<["partial_matches" := v7]> (<["recommendations" := recommendations]> ∅)))))))).

(** An argument that names a file stands for the text of the file. *)
Definition text_or_file (arg : pystr) : M pystr :=
  fun w => if isfile arg w then extract_text_from_file arg w else (Ok arg, w).

Definition analyze (job_description resume : pystr) : M (gmap string json) :=
  job_description <- text_or_file job_description ;;
  resume <- text_or_file resume ;;
  if blank job_description then
    raise (mkExn ValueError (lit "Job description cannot be empty"))
  else if blank resume then
    raise (mkExn ValueError (lit "Resume cannot be empty"))
  else
    similarity_result <- calculate_similarity_score job_description resume ;;
    skills_result <- extract_skills job_description resume ;;
    missing_skills <- lift (py_get skills_result (lit "missing_skills") (JList [])) ;;
    recommendations <- generate_recommendations job_description resume missing_skills ;;
    compile_results similarity_result skills_result recommendations.

(* ===================================================================== *)
(** ** pages/home.py: parse_contents *)
(* ===================================================================== *)

(** A method of the module-level [analyzer], which is [None] when the
    analyzer could not be constructed. *)
Definition analyzer_method (analyzer : bool) (name : string) (m : M pystr) : M pystr :=
  if analyzer then m
  else raise (mkExn AttributeError
                (lit "'NoneType' object has no attribute '" ++ lit name ++ lit "'")).

(** [parse_contents(contents, filename)]; the result is [None] or text. *)
Definition parse_contents (analyzer : bool) (contents filename : pystr)
  : M (option pystr) :=
  try_except
    (match split_on 44 contents with
     | [content_type; content_string] =>
         decoded <- lift (b64decode lib content_string) ;;
         if endswith filename (lit ".txt") then
           match decode_utf8 decoded with
           | Some t => ret (Some t)
           | None =>
               raise (mkExn UnicodeDecodeError
                        (lit "'utf-8' codec can't decode bytes"))
           end
         else if endswith filename (lit ".pdf") then
           let temp_path := lit "./tmp/" ++ filename in
           write_bytes temp_path decoded ;;;
           text <- analyzer_method analyzer "_extract_from_pdf"
                     (_extract_from_pdf temp_path) ;;
           remove temp_path ;;;
           ret (Some text)
         else if endswith filename (lit ".docx") then
           let temp_path := lit "./tmp/" ++ filename in
           write_bytes temp_path decoded ;;;
           text <- analyzer_method analyzer "_extract_from_docx"
                     (_extract_from_docx temp_path) ;;
           remove temp_path ;;;
           ret (Some text)
         else ret None
     | [] | [_] =>
         raise (mkExn ValueError (lit "not enough values to unpack (expected 2, got 1)"))
     | _ =>
         raise (mkExn ValueError (lit "too many values to unpack (expected 2)"))
     end)
    (fun _ => ret None).

End Analyzer.

Arguments lit : simpl never.

(* ===================================================================== *)
(** ** What the specification says, in its own words *)
(* ===================================================================== *)

(** The [.docx] rule: the paragraph texts that are not blank, then the
    table-cell texts that are not blank, each in document order, joined
    with newlines. *)
Definition docx_text_spec (doc : docx) : pystr :=
  join [NL]
    (List.filter (fun p => negb (blank p)) (paragraphs doc)
     ++ List.filter (fun c => negb (blank c)) (concat (concat (tables doc)))).

(** The PDF rule, on what the readers find on the pages.  The text of
    the layout-aware reader: the text of every page that has some, each
    followed by a newline. *)
Definition layout_text (pages : list (option pystr)) : pystr :=
  concat (List.map (fun p => match p with
                             | Some (c :: t) => (c :: t) ++ [NL]
                             | _ => []
                             end) pages).

(** The text of the page-by-page reader: the text of every page, each
    followed by a newline. *)
Definition pages_text (pages : list pystr) : pystr :=
  concat (List.map (fun t => t ++ [NL]) pages).

(** The layout-aware reader gives nothing to return for the bytes [b]:
    it reads the pages and their text [t1] is blank, or it cannot open
    the file (and [t1] is empty). *)
Definition layout_gives_nothing (lib : Libs) (b : pybytes) (t1 : pystr) : Prop :=
  (exists ps, pdfplumber_open lib b = inr (List.map inr ps)
              /\ t1 = layout_text ps /\ blank t1 = true)
  \/ (exists e, pdfplumber_open lib b = inl e /\ t1 = []).

(** Content that consists of ASCII characters only. *)
Definition is_ascii (b : pybytes) : bool :=
  forallb (fun x => Byte.to_N x <? 128) b.

(** The dict that [analyze] builds from three replies that are dicts. *)
Definition results_of (sim skills : list (pystr * json)) (recommendations : json)
  : gmap string json :=
  <["similarity_score" := dict_get sim (lit "similarity_score") (JInt 0)]>
  (<["overall_match" := dict_get sim (lit "overall_match") (JStr (lit "Unknown"))]>
  (<["key_strengths" := dict_get sim (lit "key_strengths") (JList [])]>
  (<["analysis_summary" := dict_get sim (lit "analysis_summary") (JStr [])]>
  (<["matching_skills" := dict_get skills (lit "matching_skills") (JList [])]>
  (<["missing_skills" := dict_get skills (lit "missing_skills") (JList [])]>
  (<["partial_matches" := dict_get skills (lit "partial_matches") (JList [])]>
  (<["recommendations" := recommendations]> ∅))))))).

(** The three requests of one [analyze] call. *)
Definition score_request (job resume : pystr) : request :=
  mkRequest ScoreStep job resume None.
Definition skills_request (job resume : pystr) : request :=
  mkRequest SkillsStep job resume None.
Definition recommend_request (job resume rendered : pystr) : request :=
  mkRequest RecommendStep job resume (Some rendered).

(** [analyze] after the validation of its two texts: the three remote
    steps and the merge, as one computation over the texts. *)
Definition remote_steps (lib : Libs) (job_description resume : pystr)
  : M (gmap string json) :=
  (similarity_result <- calculate_similarity_score lib job_description resume ;;
   skills_result <- extract_skills lib job_description resume ;;
   missing_skills <- lift (py_get skills_result (lit "missing_skills") (JList [])) ;;
   recommendations <-
     generate_recommendations lib job_description resume missing_skills ;;
   compile_results similarity_result skills_result recommendations)%py.

(** Two worlds with the same files and the same requests issued. *)
Definition same_store (w w' : world) : Prop :=
  fs w' = fs w /\ sent w' = sent w.

(** From [w] to [w'] no request was sent, and every document reader
    that was invoked was invoked on [path]. *)
Definition reads_only_at (path : pystr) (w w' : world) : Prop :=
  sent w' = sent w
  /\ exists l, attempts w' = attempts w ++ l
               /\ Forall (fun x : strategy * pystr => snd x = path) l.

(** The classes of the exceptions that leave [analyze]. *)
Definition analyze_error_classes : list exn_class :=
  [Exception_; ValueError; AttributeError; TypeError].

(* ===================================================================== *)
(** ** ResumeAnalyzer.__init__ and the module-level analyzer *)
(* ===================================================================== *)

(** Truth value of an optional string: [None] and [''] are falsy. *)
Definition str_truthy (o : option pystr) : bool :=
  match o with
  | Some (_ :: _) => true
  | _ => false
  end.

(** [a or b] on optional strings. *)
Definition str_or (a b : option pystr) : option pystr :=
  if str_truthy a then a else b.

(** The fields that [__init__] sets; [self.client] is the library's
    client object for the key. *)
Record ResumeAnalyzer := mkAnalyzer {
  api_key : pystr;
  model : pystr
}.

(** [ResumeAnalyzer(api_key)], with [getenv] what
    [os.getenv('OPENAI_API_KEY')] returns. *)
Definition __init__ (api_key getenv : option pystr) : exn + ResumeAnalyzer :=
  match str_or api_key getenv with
  | Some (c :: k) => inr (mkAnalyzer (c :: k) (lit "gpt-4o-mini"))
  | _ =>
      inl (mkExn ValueError
             (lit "OpenAI API key must be provided or set in OPENAI_API_KEY environment variable"))
  end.

(** pages/home.py, at import:
    [try: analyzer = ResumeAnalyzer()  except ValueError: analyzer = None].
    Another exception would leave the import. *)
Definition home_analyzer (getenv : option pystr) : exn + option ResumeAnalyzer :=
  match __init__ None getenv with
  | inr a => inr (Some a)
  | inl e => if bool_decide (exn_cls e = ValueError) then inr None else inl e
  end.

(* ===================================================================== *)
(** ** pages/home.py: the callbacks *)
(* ===================================================================== *)

(** [get_match_color(match_level)]: [colors.get(match_level, 'secondary')]
    on the dict of the four levels.  The key is whatever the result
    holds; a list or a dict cannot be hashed, anything else that is not
    one of the four strings is not a key. *)
Definition get_match_color (match_level : json) : exn + pystr :=
  match match_level with
  | JStr t =>
      inr (if bool_decide (t = lit "Excellent") then lit "success"
           else if bool_decide (t = lit "Good") then lit "info"
           else if bool_decide (t = lit "Fair") then lit "warning"
           else if bool_decide (t = lit "Poor") then lit "danger"
           else lit "secondary")
  | JList _ | JDict _ =>
      inl (mkExn TypeError
             (lit "unhashable type: '" ++ type_name match_level ++ lit "'"))
  | _ => inr (lit "secondary")
  end.

(** What a callback hands back for a component output: an alert with
    its text and colour, the layout that [create_results_layout] built,
    or [no_update]. *)
Inductive component (layout : Type) :=
  | Alert (children : pystr) (color : string)
  | Results (l : layout)
  | no_update.
Arguments Alert {layout} children color.
Arguments Results {layout} l.
Arguments no_update {layout}.

(** A callback returns its outputs or raises [PreventUpdate], which is
    raised outside every [try]. *)
Inductive callback (A : Type) :=
  | PreventUpdate
  | Return (a : A).
Arguments PreventUpdate {A}.
Arguments Return {A} a.

Section Home.

Variable lib : Libs.

(** The layout type of Dash, and [create_results_layout]: the component
    tree is built by the constructors of Dash, Bootstrap and Plotly,
    which validate their arguments, so the function is taken as it
    behaves: it returns a layout or raises. *)
Variable layout : Type.
Variable create_results_layout : gmap string json -> exn + layout.

(** [analyzer] is the module-level analyzer, [None] as [false]. *)
Definition handle_job_input (analyzer : bool)
    (upload_contents text_value filename : option pystr)
  : M (component layout * option pystr) :=
  match upload_contents with
  | Some (c :: cs) =>
      content <- parse_contents lib analyzer (c :: cs)
                   (default (lit "uploaded_file") (str_or filename None)) ;;
      if str_truthy content then
        ret (Alert ([10003] ++ lit " Loaded: "
                    ++ default (lit "uploaded file") (str_or filename None))
               "success",
             content)
      else ret (Alert ([10007] ++ lit " Failed to load file") "danger", None)
  | _ =>
      if str_truthy text_value then
        ret (Alert ([10003] ++ lit " Text loaded") "success", text_value)
      else ret (no_update, None)
  end.

(** With no filename, [filename.endswith] raises inside the [try] of
    [parse_contents], after the split and the decoding, which have no
    effect: the result is [None]. *)
Definition parse_contents_named (analyzer : bool) (contents : pystr)
    (filename : option pystr) : M (option pystr) :=
  match filename with
  | Some f => parse_contents lib analyzer contents f
  | None => ret None
  end.

Definition handle_resume_input (analyzer : bool)
    (upload_contents text_value filename active_tab : option pystr)
  : M (component layout * option pystr) :=
  if bool_decide (active_tab = Some (lit "resume-upload-tab"))
     && str_truthy upload_contents then
    content <- parse_contents_named analyzer (default [] upload_contents) filename ;;
    if str_truthy content then
      ret (Alert ([10003] ++ lit " Loaded: " ++ default (lit "None") filename)
             "success",
           content)
    else ret (Alert ([10007] ++ lit " Failed to load file") "danger", None)
  else if bool_decide (active_tab = Some (lit "resume-text-tab"))
          && str_truthy text_value then
    ret (Alert ([10003] ++ lit " Text loaded") "success", text_value)
  else ret (no_update, None).

(** [analyze_resume(n_clicks, job_content, resume_content)]; the third
    output is always [None] and is left out. *)
Definition analyze_resume (analyzer : bool) (n_clicks : option nat)
    (job_content resume_content : option pystr)
  : M (callback (component layout * option (gmap string json))) :=
  match n_clicks with
  | None | Some O => ret PreventUpdate
  | Some (S _) =>
      if negb (str_truthy job_content) || negb (str_truthy resume_content) then
        ret (Return
               (Alert ([9888; 65039]
                       ++ lit " Please provide both job description and resume")
                  "warning",
                None))
      else if negb analyzer then
        ret (Return
               (Alert ([9888; 65039] ++ lit " OpenAI API key not configured")
                  "danger",
                None))
      else
        try_except
          (results <- analyze lib (default [] job_content)
                        (default [] resume_content) ;;
           results_layout <- lift (create_results_layout results) ;;
           ret (Return (Results results_layout, Some results)))
          (fun e =>
             ret (Return
                    (Alert ([10060] ++ lit " Error during analysis: " ++ exn_str e)
                       "danger",
                     None)))
  end.

End Home.

(* ===================================================================== *)
(** ** A concrete installation, for the examples *)
(* ===================================================================== *)

Definition bytes_of (x : string) : pybytes := list_byte_of_string x.

(** What the scoring reply of the example service holds: a score outside
    0..100 and no other key. *)
Definition example_score : list (pystr * json) :=
  [(lit "similarity_score", JInt 150)].

(** A skills reply without the key [partial_matches]. *)
Definition example_skills : list (pystr * json) :=
  [(lit "matching_skills", JList [JStr (lit "Python")]);
   (lit "missing_skills", JList [JStr (lit "AWS"); JStr (lit "Docker")])].

(** A recommendations reply with a key nobody asked for. *)
Definition example_recommendations : list (pystr * json) :=
  [(lit "recommendations", JList [JStr (lit "Mention AWS projects")]);
   (lit "confidence", JFloat S754_nan)].

(** A service that answers each step with the reply above. *)
Definition example_chat (_ : list request) (rq : request) : exn + json :=
  match rq_step rq with
  | ScoreStep => inr (JDict example_score)
  | SkillsStep => inr (JDict example_skills)
  | RecommendStep => inr (JDict example_recommendations)
  end.

(** The document with the two paragraphs "Alice" and "Engineer" and no
    table. *)
Definition alice_doc : docx := mkDocx [lit "Alice"; lit "Engineer"] [].

(** Libraries on a scanned PDF: one page, on which pdfplumber finds no
    text ([None]) and PyPDF2 finds the empty string.  The base64 decoder
    knows the one upload of the examples. *)
Definition example_lib : Libs :=
  mkLibs
    (fun _ => inr [inr None])
    (fun _ => inr [inr []])
    (fun _ => inr alice_doc)
    (fun t => if bool_decide (t = lit "JVBERi0xLjQ=") then inr (bytes_of "%PDF-1.4")
              else inl (mkExn LibraryError (lit "Incorrect padding")))
    example_chat.

(** The example libraries with a service that answers the three steps
    as given. *)
Definition chat_lib (score skills recs : exn + json) : Libs :=
  mkLibs (pdfplumber_open example_lib) (PdfReader example_lib)
    (Document example_lib) (b64decode example_lib)
    (fun _ rq =>
       match rq_step rq with
       | ScoreStep => score
       | SkillsStep => skills
       | RecommendStep => recs
       end).

(** A service that cannot be reached. *)
Definition offline_lib : Libs :=
  let e := inl (mkExn LibraryError (lit "Connection error.")) in
  chat_lib e e e.

(** A service whose scoring reply is a JSON array. *)
Definition array_score_lib : Libs :=
  chat_lib (inr (JList [JInt 87])) (inr (JDict example_skills))
    (inr (JDict example_recommendations)).

(** A service whose skills reply is a JSON string. *)
Definition string_skills_lib : Libs :=
  chat_lib (inr (JDict example_score)) (inr (JStr (lit "Python")))
    (inr (JDict example_recommendations)).

(** A service whose missing skills are numbers. *)
Definition numeric_skills_lib : Libs :=
  chat_lib (inr (JDict example_score))
    (inr (JDict [(lit "missing_skills", JList [JInt 1; JInt 2])]))
    (inr (JDict example_recommendations)).

(** Libraries on a PDF whose first page reads "Alice" and whose second
    page makes pdfplumber raise; PyPDF2 reads the one line again. *)
Definition flaky_pdf_lib : Libs :=
  mkLibs
    (fun _ => inr [inr (Some (lit "Alice"));
                   inl (mkExn LibraryError (lit "bad page"))])
    (fun _ => inr [inr (lit "Alice")])
    (fun _ => inr (mkDocx [lit "  "; []] [[[lit " "]]]))
    (b64decode example_lib)
    example_chat.

(** Libraries on a PDF with text: both readers find "Alice" on its one
    page. *)
Definition text_pdf_lib : Libs :=
  mkLibs
    (fun _ => inr [inr (Some (lit "Alice"))])
    (fun _ => inr [inr (lit "Alice")])
    (Document example_lib) (b64decode example_lib) example_chat.

(** Libraries on a PDF on which pdfplumber finds only an empty page and
    PyPDF2 finds "Alice". *)
Definition second_reader_lib : Libs :=
  mkLibs
    (fun _ => inr [inr (Some [])])
    (fun _ => inr [inr (lit "Alice")])
    (Document example_lib) (b64decode example_lib) example_chat.

Definition crlf_bytes : pybytes :=
  bytes_of "Alice" ++ [Byte.x0d; Byte.x0a] ++ bytes_of "Engineer".

(** A filesystem with the upload directory, a legacy Word file, a Word
    file and three text files: plain ASCII, ASCII with a CR LF line end,
    and Latin-1 ("caf" followed by byte E9). *)
Definition example_fs : gmap pystr node :=
  <[lit "./tmp" := Dir]>
  (<[lit "cv.doc" := File (bytes_of "Alice, Engineer")]>
  (<[lit "cv.docx" := File (bytes_of "PK")]>
  (<[lit "jd.txt" := File (bytes_of "Python developer")]>
  (<[lit "crlf.txt" := File crlf_bytes]>
  (<[lit "latin.txt" := File (bytes_of "caf" ++ [Byte.xe9])]> ∅))))).

Definition example_world : world := mkWorld example_fs [] [].

(** A filesystem with a PDF, a Word file, a Markdown file and no upload
    directory. *)
Definition office_fs : gmap pystr node :=
  <[lit "cv.pdf" := File (bytes_of "%PDF-1.4")]>
  (<[lit "empty.docx" := File (bytes_of "PK")]>
  (<[lit "notes.md" := File (bytes_of "# Python")]> ∅)).

Definition office_world : world := mkWorld office_fs [] [].

Definition example_job : pystr := lit "Python developer".
Definition example_resume : pystr := lit "I write Python".

(** The upload of the scanned PDF, as Dash hands it to [parse_contents]. *)
Definition example_upload : pystr := lit "data:application/pdf;base64,JVBERi0xLjQ=".

(* ===================================================================== *)
(** ** Text lemmas *)
(* ===================================================================== *)

Lemma lstrip_nil (t : pystr) : lstrip t = [] <-> forallb py_isspace t = true.
Proof.
  induction t as [|c t IH]; simpl; [easy|].
  destruct (py_isspace c); simpl; [exact IH|]. split; discriminate.
Qed.

Lemma lstrip_spaces (t : pystr) :
  forallb py_isspace (lstrip t) = forallb py_isspace t.
Proof.
  induction t as [|c t IH]; simpl; [reflexivity|].
  destruct (py_isspace c) eqn:Hc; simpl; [exact IH|]. now rewrite Hc.
Qed.

Lemma forallb_rev_eq {A} (f : A -> bool) (l : list A) :
  forallb f (rev l) = forallb f l.
Proof.
  induction l as [|x l IH]; simpl; [reflexivity|].
  rewrite forallb_app, IH. simpl. rewrite andb_true_r. apply andb_comm.
Qed.

(** A text is blank for [strip] exactly when all its characters are
    whitespace. *)
Lemma blank_forallb (t : pystr) : blank t = forallb py_isspace t.
Proof.
  unfold blank, strip, rstrip.
  destruct (forallb py_isspace t) eqn:Hs.
  - apply lstrip_nil in Hs. now rewrite Hs.
  - destruct (rev (lstrip (rev (lstrip t)))) as [|c r] eqn:Hr; [|reflexivity].
    apply (f_equal (@rev N)) in Hr. rewrite rev_involutive in Hr. simpl in Hr.
    apply lstrip_nil in Hr. rewrite forallb_rev_eq, lstrip_spaces in Hr.
    congruence.
Qed.

Lemma blank_app (a b : pystr) : blank (a ++ b) = blank a && blank b.
Proof. rewrite !blank_forallb. apply forallb_app. Qed.

(** ASCII bytes decode to themselves. *)
Lemma utf8_go_ascii (l : list N) :
  forallb (fun x => x <? 128) l = true -> utf8_go l O 0 128 191 = Some l.
Proof.
  induction l as [|x l IH]; simpl; [reflexivity|].
  intros H. apply andb_true_iff in H as [Hx Hl].
  rewrite Hx, (IH Hl). reflexivity.
Qed.

Lemma decode_utf8_ascii (b : pybytes) :
  is_ascii b = true -> decode_utf8 b = Some (decode_latin1 b).
Proof.
  intros H. unfold decode_utf8, decode_latin1. apply utf8_go_ascii.
  unfold is_ascii in H. induction b as [|x b IH]; simpl in *; [reflexivity|].
  apply andb_true_iff in H as [Hx Hb]. now rewrite Hx, IH.
Qed.

(** Without a carriage return the newline translation changes nothing. *)
Lemma universal_newlines_no_cr (t : pystr) :
  existsb (N.eqb CR) t = false -> universal_newlines t = t.
Proof.
  induction t as [|c t IH]; cbn [existsb universal_newlines]; [reflexivity|].
  intros H. apply orb_false_iff in H as [Hc Ht].
  rewrite (N.eqb_sym CR c) in Hc. rewrite Hc, (IH Ht). reflexivity.
Qed.

(** The docx loops compute the filters of the specification. *)
Lemma docx_paragraphs_filter (ps : list pystr) (acc : list pystr) :
  docx_paragraphs ps acc = acc ++ List.filter (fun p => negb (blank p)) ps.
Proof.
  revert acc. induction ps as [|p ps IH]; intros acc; simpl.
  - now rewrite app_nil_r.
  - rewrite IH. destruct (blank p); simpl; [reflexivity|].
    now rewrite <- app_assoc.
Qed.

Lemma docx_cells_filter (cs : list pystr) (acc : list pystr) :
  docx_cells cs acc = acc ++ List.filter (fun c => negb (blank c)) cs.
Proof.
  revert acc. induction cs as [|c cs IH]; intros acc; simpl.
  - now rewrite app_nil_r.
  - rewrite IH. destruct (blank c); simpl; [reflexivity|].
    now rewrite <- app_assoc.
Qed.

Lemma docx_rows_filter (rows : list (list pystr)) (acc : list pystr) :
  docx_rows rows acc = acc ++ List.filter (fun c => negb (blank c)) (concat rows).
Proof.
  revert acc. induction rows as [|r rows IH]; intros acc; simpl.
  - now rewrite app_nil_r.
  - rewrite IH, docx_cells_filter, List.filter_app, app_assoc. reflexivity.
Qed.

Lemma docx_tables_filter (ts : list (list (list pystr))) (acc : list pystr) :
  docx_tables ts acc
  = acc ++ List.filter (fun c => negb (blank c)) (concat (concat ts)).
Proof.
  revert acc. induction ts as [|t ts IH]; intros acc; simpl.
  - now rewrite app_nil_r.
  - rewrite IH, docx_rows_filter, concat_app, List.filter_app, app_assoc.
    reflexivity.
Qed.

Lemma docx_loops_spec (doc : docx) :
  join [NL] (docx_tables (tables doc) (docx_paragraphs (paragraphs doc) []))
  = docx_text_spec doc.
Proof.
  unfold docx_text_spec.
  now rewrite docx_tables_filter, docx_paragraphs_filter.
Qed.

(* ===================================================================== *)
(** ** The text extractor *)
(* ===================================================================== *)

Lemma legacy_doc_message_names_docx :
  exists pre post,
    legacy_doc_message
    = pre ++ lit "Please convert your file to .docx format" ++ post.
Proof.
  exists (lit "Legacy .doc format is not supported. "),
         (lit " using Microsoft Word or a free converter.").
  reflexivity.
Qed.

Section Extractor.

Variable lib : Libs.

Lemma read_bytes_file (path : pystr) (w : world) (b : pybytes) :
  valid_path path = true -> fs w !! path = Some (File b) ->
  read_bytes path w = (Ok b, w).
Proof. intros Hv Hf. unfold read_bytes. now rewrite Hv, Hf. Qed.

Lemma read_bytes_noted (path : pystr) (w : world) (b : pybytes) s a :
  valid_path path = true -> fs w !! path = Some (File b) ->
  read_bytes path (mkWorld (fs w) s a) = (Ok b, mkWorld (fs w) s a).
Proof. intros Hv Hf. now apply read_bytes_file. Qed.

Lemma exists_file (path : pystr) (w : world) (b : pybytes) :
  valid_path path = true -> fs w !! path = Some (File b) ->
  exists_ path w = true.
Proof.
  intros Hv Hf. unfold exists_. now rewrite Hv, Hf.
Qed.

(** The page-by-page loop appends to the text it is given. *)
Lemma pypdf_pages_app (pages : list (exn + pystr)) (text : pystr) :
  pypdf_pages pages text =
  match pypdf_pages pages [] with
  | inr t => inr (text ++ t)
  | inl e => inl e
  end.
Proof.
  revert text. induction pages as [|[e|t] pages IH]; intros text; simpl.
  - now rewrite app_nil_r.
  - reflexivity.
  - rewrite (IH (text ++ t ++ [NL])), (IH (t ++ [NL])).
    destruct (pypdf_pages pages []); [reflexivity|].
    now rewrite <- !app_assoc.
Qed.

(** Whatever happens in the first method, it ends normally, with
    pdfplumber recorded as the reader that was tried. *)
Lemma pdf_method1_total (path : pystr) (w : world) :
  exists t1 err,
    pdf_method1 lib path w
    = (Ok (t1, err), mkWorld (fs w) (sent w) (attempts w ++ [(Pdfplumber, path)])).
Proof.
  unfold pdf_method1, bind, note, read_bytes, lift, ret, raise. simpl.
  destruct (valid_path path); simpl; [|eauto].
  destruct (fs w !! path) as [[b|]|]; simpl; eauto.
  destruct (pdfplumber_open lib b) as [e|pages]; simpl; eauto.
  destruct (plumber_pages pages []) as [t1 err]. eauto.
Qed.

(** The second method records PyPDF2, returns only text that is not
    blank, and raises [Exception] otherwise. *)
Lemma pdf_method2_cases (path text : pystr) (w : world) :
  let w2 := mkWorld (fs w) (sent w) (attempts w ++ [(PyPDF2, path)]) in
  (exists t, pdf_method2 lib path text w = (Ok t, w2) /\ blank t = false
             /\ exists b pages t2,
                  fs w !! path = Some (File b) /\ PdfReader lib b = inr pages
                  /\ pypdf_pages pages [] = inr t2 /\ t = text ++ t2)
  \/ (exists e, pdf_method2 lib path text w = (Raise e, w2)
                /\ exn_cls e = Exception_).
Proof.
  intros w2. subst w2.
  unfold pdf_method2, try_except, bind, note, read_bytes, lift, ret, raise. simpl.
  destruct (valid_path path); simpl; [|right; eauto].
  destruct (fs w !! path) as [[b|]|] eqn:Hf; simpl; try (right; eauto; fail).
  destruct (PdfReader lib b) as [e|pages] eqn:Hr; simpl; [right; eauto|].
  rewrite pypdf_pages_app.
  destruct (pypdf_pages pages []) as [e|t2] eqn:Hp; simpl; [right; eauto|].
  destruct (blank (text ++ t2)) eqn:Hb; simpl; [right; eauto|].
  left. exists (text ++ t2). repeat split; eauto 10.
Qed.

(** C5.  A file whose extension is [.doc] (in any letter case) is
    refused whatever it contains: [extract_text_from_file] raises the
    exception that tells the caller to convert the file to [.docx], and
    it leaves the world as it was, so no reader has been tried on the
    file.  The outcome does not mention the libraries at all. *)
Theorem doc_files_are_rejected (path : pystr) (w : world) :
  exists_ path w = true ->
  lower (suffix path) = lit ".doc" ->
  extract_text_from_file lib path w
  = (Raise (mkExn Exception_ legacy_doc_message), w)
  /\ attempts (snd (extract_text_from_file lib path w)) = attempts w
  /\ exists pre post,
       legacy_doc_message
       = pre ++ lit "Please convert your file to .docx format" ++ post.
Proof.
  intros He Hs.
  assert (Hrun : extract_text_from_file lib path w
                 = (Raise (mkExn Exception_ legacy_doc_message), w)).
  { unfold extract_text_from_file. rewrite He, Hs. reflexivity. }
  rewrite Hrun. repeat split. apply legacy_doc_message_names_docx.
Qed.

(** The loops of the two PDF methods on pages that are all read. *)
Lemma plumber_pages_read (ps : list (option pystr)) (text : pystr) :
  plumber_pages (List.map inr ps) text = (text ++ layout_text ps, None).
Proof.
  revert text. induction ps as [|p ps IH]; intros text.
  - cbn. now rewrite app_nil_r.
  - unfold layout_text. cbn [List.map concat plumber_pages].
    fold (layout_text ps).
    destruct p as [[|c t]|]; rewrite IH; [reflexivity| |reflexivity].
    now rewrite <- !app_assoc.
Qed.

Lemma pypdf_pages_read (ts : list pystr) (text : pystr) :
  pypdf_pages (List.map inr ts) text = inr (text ++ pages_text ts).
Proof.
  revert text. induction ts as [|t ts IH]; intros text.
  - cbn. now rewrite app_nil_r.
  - unfold pages_text. cbn [List.map concat pypdf_pages].
    fold (pages_text ts). rewrite IH. now rewrite <- !app_assoc.
Qed.

(** The run of the first method on a file that is there. *)
Lemma pdf_method1_run (path : pystr) (w : world) (b : pybytes) :
  valid_path path = true -> fs w !! path = Some (File b) ->
  pdf_method1 lib path w
  = (Ok (match pdfplumber_open lib b with
         | inr pp => plumber_pages pp []
         | inl e => ([], Some e)
         end),
     mkWorld (fs w) (sent w) (attempts w ++ [(Pdfplumber, path)])).
Proof.
  intros Hv Hf. unfold pdf_method1, bind, note. cbv beta.
  rewrite (read_bytes_noted path w b _ _ Hv Hf). unfold lift.
  destruct (pdfplumber_open lib b); reflexivity.
Qed.

(** The run of the second method on a file that is there. *)
Lemma pdf_method2_run (path text : pystr) (w : world) (b : pybytes) s a :
  valid_path path = true -> fs w !! path = Some (File b) ->
  pdf_method2 lib path text (mkWorld (fs w) s a)
  = (match PdfReader lib b with
     | inl e =>
         Raise (mkExn Exception_
                  (lit "Failed to extract text from PDF: " ++ exn_str e))
     | inr pages =>
         match pypdf_pages pages text with
         | inl e =>
             Raise (mkExn Exception_
                      (lit "Failed to extract text from PDF: " ++ exn_str e))
         | inr text' =>
             if blank text' then
               Raise (mkExn Exception_
                        (lit "Failed to extract text from PDF: "
                         ++ lit "No text could be extracted from PDF"))
             else Ok text'
         end
     end,
     mkWorld (fs w) s (a ++ [(PyPDF2, path)])).
Proof.
  intros Hv Hf. unfold pdf_method2, try_except, bind, note. cbv beta.
  cbn [fs sent attempts].
  rewrite (read_bytes_noted path w b _ _ Hv Hf). unfold lift.
  destruct (PdfReader lib b) as [e|pages]; [reflexivity|].
  unfold ret at 1. destruct (pypdf_pages pages text) as [e|text']; [reflexivity|].
  unfold ret at 1. destruct (blank text'); reflexivity.
Qed.

(** C6.  On a PDF file, with what the two readers find on its pages.
    pdfplumber is tried first.  When it reads the pages and their text
    ([layout_text]) is not blank, that text is the result and PyPDF2 is
    not tried.  When it reads only blank text, or cannot open the file,
    PyPDF2 is tried next: if the text of its pages ([pages_text]) is not
    blank, the result is that text (behind what pdfplumber had read); if
    it is blank, or PyPDF2 cannot open the file, the extraction raises
    [Exception].  A text that is returned is never blank, and pdfplumber
    is always the first reader tried. *)
Theorem pdf_extraction_order (path : pystr) (w : world) (b : pybytes) :
  valid_path path = true ->
  fs w !! path = Some (File b) ->
  (forall ps,
      pdfplumber_open lib b = inr (List.map inr ps) ->
      blank (layout_text ps) = false ->
      _extract_from_pdf lib path w
      = (Ok (layout_text ps),
         mkWorld (fs w) (sent w) (attempts w ++ [(Pdfplumber, path)])))
  /\ (forall t1 ts,
        layout_gives_nothing lib b t1 ->
        PdfReader lib b = inr (List.map inr ts) ->
        blank (pages_text ts) = false ->
        _extract_from_pdf lib path w
        = (Ok (t1 ++ pages_text ts),
           mkWorld (fs w) (sent w)
             (attempts w ++ [(Pdfplumber, path); (PyPDF2, path)])))
  /\ (forall t1 ts,
        layout_gives_nothing lib b t1 ->
        PdfReader lib b = inr (List.map inr ts) ->
        blank (pages_text ts) = true ->
        _extract_from_pdf lib path w
        = (Raise (mkExn Exception_
                    (lit "Failed to extract text from PDF: "
                     ++ lit "No text could be extracted from PDF")),
           mkWorld (fs w) (sent w)
             (attempts w ++ [(Pdfplumber, path); (PyPDF2, path)])))
  /\ (forall t1 e,
        layout_gives_nothing lib b t1 ->
        PdfReader lib b = inl e ->
        _extract_from_pdf lib path w
        = (Raise (mkExn Exception_
                    (lit "Failed to extract text from PDF: " ++ exn_str e)),
           mkWorld (fs w) (sent w)
             (attempts w ++ [(Pdfplumber, path); (PyPDF2, path)])))
  /\ (forall text w',
        _extract_from_pdf lib path w = (Ok text, w') -> blank text = false)
  /\ (exists rest,
        attempts (snd (_extract_from_pdf lib path w))
        = attempts w ++ (Pdfplumber, path) :: rest).
Proof.
  intros Hv Hf.
  pose proof (pdf_method1_run path w b Hv Hf) as M1.
  assert (M2 : forall text,
             pdf_method2 lib path text
               (mkWorld (fs w) (sent w) (attempts w ++ [(Pdfplumber, path)]))
             = (match PdfReader lib b with
                | inl e =>
                    Raise (mkExn Exception_
                             (lit "Failed to extract text from PDF: " ++ exn_str e))
                | inr pages =>
                    match pypdf_pages pages text with
                    | inl e =>
                        Raise (mkExn Exception_
                                 (lit "Failed to extract text from PDF: "
                                  ++ exn_str e))
                    | inr text' =>
                        if blank text' then
                          Raise (mkExn Exception_
                                   (lit "Failed to extract text from PDF: "
                                    ++ lit "No text could be extracted from PDF"))
                        else Ok text'
                    end
                end,
                mkWorld (fs w) (sent w)
                  (attempts w ++ [(Pdfplumber, path); (PyPDF2, path)]))).
  { intros text. rewrite (pdf_method2_run path text w b _ _ Hv Hf).
    now rewrite <- app_assoc. }
  assert (Hfall : forall t1,
             layout_gives_nothing lib b t1 ->
             blank t1 = true
             /\ _extract_from_pdf lib path w
                = pdf_method2 lib path t1
                    (mkWorld (fs w) (sent w) (attempts w ++ [(Pdfplumber, path)]))).
  { intros t1 [(ps & Hp & -> & Hb)|(e & Hp & ->)].
    - split; [exact Hb|]. unfold _extract_from_pdf, bind.
      rewrite M1, Hp, plumber_pages_read. cbn [app]. now rewrite Hb.
    - split; [reflexivity|]. unfold _extract_from_pdf, bind.
      now rewrite M1, Hp. }
  split; [|split; [|split; [|split; [|split]]]].
  - intros ps Hp Hb. unfold _extract_from_pdf, bind.
    rewrite M1, Hp, plumber_pages_read. cbn [app]. now rewrite Hb.
  - intros t1 ts Hn Hr Hb. destruct (Hfall t1 Hn) as [Hb1 ->].
    rewrite M2, Hr, pypdf_pages_read, blank_app, Hb1, Hb. reflexivity.
  - intros t1 ts Hn Hr Hb. destruct (Hfall t1 Hn) as [Hb1 ->].
    rewrite M2, Hr, pypdf_pages_read, blank_app, Hb1, Hb. reflexivity.
  - intros t1 e Hn Hr. destruct (Hfall t1 Hn) as [Hb1 ->].
    now rewrite M2, Hr.
  - intros text w' Hrun. unfold _extract_from_pdf, bind in Hrun.
    rewrite M1 in Hrun.
    destruct (match pdfplumber_open lib b with
              | inr pp => plumber_pages pp []
              | inl e => ([], Some e)
              end) as [t1 [e|]].
    + rewrite M2 in Hrun. destruct (PdfReader lib b) as [e'|pages]; [discriminate|].
      destruct (pypdf_pages pages t1) as [e'|t']; [discriminate|].
      destruct (blank t') eqn:Hb; [discriminate|]. congruence.
    + destruct (blank t1) eqn:Hb1; cbn [negb] in Hrun.
      * rewrite M2 in Hrun.
        destruct (PdfReader lib b) as [e'|pages]; [discriminate|].
        destruct (pypdf_pages pages t1) as [e'|t']; [discriminate|].
        destruct (blank t') eqn:Hb; [discriminate|]. congruence.
      * unfold ret in Hrun. congruence.
  - unfold _extract_from_pdf, bind. rewrite M1.
    destruct (match pdfplumber_open lib b with
              | inr pp => plumber_pages pp []
              | inl e => ([], Some e)
              end) as [t1 [e|]].
    + rewrite M2. cbn [snd attempts]. eauto.
    + destruct (blank t1); cbn [negb].
      * rewrite M2. cbn [snd attempts]. eauto.
      * unfold ret. cbn [snd attempts]. eauto.
Qed.

(** C7.  For a [.docx] file that python-docx opens, the extractor
    returns the paragraph texts that are not blank followed by the texts
    of the table cells that are not blank, each in document order, joined
    with newlines; python-docx is the one reader tried. *)
Theorem docx_extraction_text (path : pystr) (w : world) (b : pybytes) (doc : docx) :
  valid_path path = true ->
  fs w !! path = Some (File b) ->
  lower (suffix path) = lit ".docx" ->
  Document lib b = inr doc ->
  extract_text_from_file lib path w
  = (Ok (docx_text_spec doc),
     mkWorld (fs w) (sent w) (attempts w ++ [(Docx, path)])).
Proof.
  intros Hv Hf Hs Hd.
  unfold extract_text_from_file.
  rewrite (exists_file path w b Hv Hf), Hs. simpl.
  unfold _extract_from_docx, try_except, bind, note. cbv beta.
  rewrite (read_bytes_noted path w b _ _ Hv Hf). unfold lift. rewrite Hd.
  unfold ret. now rewrite docx_loops_spec.
Qed.

(** C8, as the code has it.  A [.txt] file is read in text mode, so the
    text returned is the decoded content with every CR LF and every lone
    CR turned into LF.  ASCII content without a carriage return comes
    back exactly as it is; content that is not valid UTF-8 is read again
    as Latin-1 and does not make the extraction fail. *)
Theorem txt_extraction_text (path : pystr) (w : world) (b : pybytes) :
  valid_path path = true ->
  fs w !! path = Some (File b) ->
  lower (suffix path) = lit ".txt" ->
  (is_ascii b = true ->
   fst (extract_text_from_file lib path w)
   = Ok (universal_newlines (decode_latin1 b))
   /\ (existsb (N.eqb CR) (decode_latin1 b) = false ->
       fst (extract_text_from_file lib path w) = Ok (decode_latin1 b)))
  /\ (decode_utf8 b = None ->
      extract_text_from_file lib path w
      = (Ok (universal_newlines (decode_latin1 b)),
         mkWorld (fs w) (sent w)
           (attempts w ++ [(ReadText "utf-8", path); (ReadText "latin-1", path)]))).
Proof.
  intros Hv Hf Hs.
  assert (Hrun : extract_text_from_file lib path w
                 = match _extract_from_txt path w with
                   | (Ok t, w') => (Ok t, w')
                   | (Raise e, w') =>
                       (Raise (mkExn Exception_
                                 (lit "Error reading file " ++ path ++ lit ": "
                                  ++ exn_str e)), w')
                   end).
  { unfold extract_text_from_file.
    rewrite (exists_file path w b Hv Hf), Hs. simpl.
    unfold try_except. destruct (_extract_from_txt path w) as [[t|e] w']; reflexivity. }
  rewrite Hrun.
  unfold _extract_from_txt, try_except_cls, read_text, bind, note. cbv beta.
  rewrite (read_bytes_noted path w b _ _ Hv Hf).
  split.
  - intros Ha. rewrite (decode_utf8_ascii b Ha). unfold ret. cbn [fst].
    split; [reflexivity|]. intros Hcr.
    now rewrite (universal_newlines_no_cr _ Hcr).
  - intros Hd. rewrite Hd. unfold raise. cbn [exn_cls].
    rewrite bool_decide_eq_true_2 by reflexivity.
    rewrite (read_bytes_noted path w b _ _ Hv Hf). unfold ret.
    cbn [sent attempts]. now rewrite <- app_assoc.
Qed.

End Extractor.

(* ===================================================================== *)
(** ** The analysis orchestrator *)
(* ===================================================================== *)

Section Orchestrator.

Variable lib : Libs.

Lemma same_store_refl (w : world) : same_store w w.
Proof. now split. Qed.

Lemma same_store_trans (w1 w2 w3 : world) :
  same_store w1 w2 -> same_store w2 w3 -> same_store w1 w3.
Proof. intros [? ?] [? ?]. split; congruence. Qed.

Lemma read_bytes_world (path : pystr) (w w' : world) (r : outcome pybytes) :
  read_bytes path w = (r, w') -> w' = w.
Proof.
  unfold read_bytes. destruct (valid_path path); [|now intros [= _ <-]].
  destruct (fs w !! path) as [[b|]|]; now intros [= _ <-].
Qed.

Lemma extract_from_txt_store (path : pystr) (w : world) :
  same_store w (snd (_extract_from_txt path w)).
Proof.
  unfold _extract_from_txt, try_except_cls, read_text, bind, note. cbv beta.
  destruct (read_bytes path _) as [[b|e] w1] eqn:H1;
    apply read_bytes_world in H1; subst w1.
  - destruct (decode_utf8 b); unfold ret, raise; [now split|].
    rewrite bool_decide_eq_true_2 by reflexivity.
    destruct (read_bytes path _) as [[b'|e'] w2] eqn:H2;
      apply read_bytes_world in H2; subst w2; now split.
  - destruct (bool_decide (exn_cls e = UnicodeDecodeError)); [|now split].
    destruct (read_bytes path _) as [[b'|e'] w2] eqn:H2;
      apply read_bytes_world in H2; subst w2; now split.
Qed.

Lemma extract_from_docx_store (path : pystr) (w : world) :
  same_store w (snd (_extract_from_docx lib path w)).
Proof.
  unfold _extract_from_docx, try_except, bind, note. cbv beta.
  destruct (read_bytes path _) as [[b|e] w1] eqn:H1;
    apply read_bytes_world in H1; subst w1.
  - unfold lift. destruct (Document lib b); now split.
  - now split.
Qed.

Lemma extract_from_pdf_store (path : pystr) (w : world) :
  same_store w (snd (_extract_from_pdf lib path w)).
Proof.
  destruct (pdf_method1_total lib path w) as (t1 & err & H1).
  unfold _extract_from_pdf, bind. rewrite H1.
  set (w1 := mkWorld _ _ _).
  assert (H2 : same_store w (snd (pdf_method2 lib path t1 w1))).
  { destruct (pdf_method2_cases lib path t1 w1) as [(t & -> & _)|(e & -> & _)];
      now split. }
  destruct err as [e|]; [exact H2|].
  destruct (blank t1); [exact H2|now split].
Qed.

(** Extraction reads files and invokes readers; it neither changes a
    file nor issues a request. *)
Lemma extract_text_from_file_store (path : pystr) (w : world) :
  same_store w (snd (extract_text_from_file lib path w)).
Proof.
  unfold extract_text_from_file.
  destruct (negb (exists_ path w)); [apply same_store_refl|].
  destruct (bool_decide (lower (suffix path) = lit ".doc")); [apply same_store_refl|].
  unfold try_except.
  destruct (bool_decide (lower (suffix path) = lit ".pdf")).
  { pose proof (extract_from_pdf_store path w) as H.
    destruct (_extract_from_pdf lib path w) as [[t|e] w']; exact H. }
  destruct (bool_decide (lower (suffix path) = lit ".docx")).
  { pose proof (extract_from_docx_store path w) as H.
    destruct (_extract_from_docx lib path w) as [[t|e] w']; exact H. }
  pose proof (extract_from_txt_store path w) as H.
  destruct (_ || _); destruct (_extract_from_txt path w) as [[t|e] w']; exact H.
Qed.

Lemma text_or_file_store (arg : pystr) (w : world) :
  same_store w (snd (text_or_file lib arg w)).
Proof.
  unfold text_or_file. destruct (isfile arg w); [|apply same_store_refl].
  apply extract_text_from_file_store.
Qed.

(** What the extractor raises is an [Exception] or, for a path that does
    not exist, [FileNotFoundError]. *)
Lemma extract_text_from_file_error (path : pystr) (w w' : world) (e : exn) :
  extract_text_from_file lib path w = (Raise e, w') ->
  exn_cls e = Exception_
  \/ (exists_ path w = false /\ exn_cls e = FileNotFoundError).
Proof.
  unfold extract_text_from_file.
  destruct (exists_ path w); simpl; [|intros [= <- _]; now right].
  destruct (bool_decide (lower (suffix path) = lit ".doc")); [intros [= <- _]; now left|].
  unfold try_except. destruct (if bool_decide _ then _ else _) as [[t|e0] w0];
    [discriminate|]. unfold raise. intros [= <- _]. now left.
Qed.

Lemma isfile_exists (p : pystr) (w : world) :
  isfile p w = true -> exists_ p w = true.
Proof.
  unfold isfile, exists_. destruct (valid_path p); [|discriminate].
  destruct (fs w !! p) as [[b|]|]; simpl; try discriminate. reflexivity.
Qed.


Lemma analyze_unfold (job resume : pystr) (w : world) :
  analyze lib job resume w =
  match text_or_file lib job w with
  | (Raise e, w1) => (Raise e, w1)
  | (Ok tj, w1) =>
      match text_or_file lib resume w1 with
      | (Raise e, w2) => (Raise e, w2)
      | (Ok tr, w2) =>
          if blank tj then
            (Raise (mkExn ValueError (lit "Job description cannot be empty")), w2)
          else if blank tr then
            (Raise (mkExn ValueError (lit "Resume cannot be empty")), w2)
          else remote_steps lib tj tr w2
      end
  end.
Proof.
  unfold analyze, bind.
  destruct (text_or_file lib job w) as [[tj|e] w1]; [|reflexivity].
  destruct (text_or_file lib resume w1) as [[tr|e] w2]; [|reflexivity].
  destruct (blank tj); [reflexivity|]. destruct (blank tr); reflexivity.
Qed.

(** The merge of three dicts never fails. *)
Lemma compile_results_dicts (sim skills : list (pystr * json)) (recs : json)
    (w : world) :
  compile_results (JDict sim) (JDict skills) recs w
  = (Ok (results_of sim skills recs), w).
Proof. reflexivity. Qed.

Lemma calculate_similarity_score_run (tj tr : pystr) (w : world) :
  calculate_similarity_score lib tj tr w
  = (match chat_json lib (sent w) (score_request tj tr) with
     | inr v => Ok v
     | inl e => Raise (mkExn Exception_
                         (lit "Error calculating similarity score: " ++ exn_str e))
     end,
     mkWorld (fs w) (sent w ++ [score_request tj tr]) (attempts w)).
Proof.
  unfold calculate_similarity_score, try_except, ask, raise.
  fold (score_request tj tr).
  destruct (chat_json lib (sent w) (score_request tj tr)); reflexivity.
Qed.

Lemma extract_skills_run (tj tr : pystr) (w : world) :
  extract_skills lib tj tr w
  = (match chat_json lib (sent w) (skills_request tj tr) with
     | inr v => Ok v
     | inl e => Raise (mkExn Exception_ (lit "Error extracting skills: " ++ exn_str e))
     end,
     mkWorld (fs w) (sent w ++ [skills_request tj tr]) (attempts w)).
Proof.
  unfold extract_skills, try_except, ask, raise.
  fold (skills_request tj tr).
  destruct (chat_json lib (sent w) (skills_request tj tr)); reflexivity.
Qed.

Lemma generate_recommendations_run (tj tr : pystr) (missing : json) (w : world) :
  generate_recommendations lib tj tr missing w
  = match render_missing missing with
    | inl e => (Raise e, w)
    | inr ms =>
        (match chat_json lib (sent w) (recommend_request tj tr ms) with
         | inr (JDict rc) => Ok (dict_get rc (lit "recommendations") (JList []))
         | inr v =>
             Raise (mkExn Exception_
                      (lit "Error generating recommendations: "
                       ++ lit "'" ++ type_name v
                       ++ lit "' object has no attribute 'get'"))
         | inl e =>
             Raise (mkExn Exception_
                      (lit "Error generating recommendations: " ++ exn_str e))
         end,
         mkWorld (fs w) (sent w ++ [recommend_request tj tr ms]) (attempts w))
    end.
Proof.
  unfold generate_recommendations, bind, lift.
  destruct (render_missing missing) as [e|ms]; [reflexivity|].
  unfold ret, try_except, bind, ask, raise. fold (recommend_request tj tr ms).
  destruct (chat_json lib (sent w) (recommend_request tj tr ms)) as [e|v];
    [reflexivity|].
  destruct v; reflexivity.
Qed.

(** One [analyze] call on two texts: either the three replies are dicts
    and the merged dict is returned after exactly three requests, or an
    exception leaves the call. *)
Lemma remote_steps_cases (tj tr : pystr) (w : world) :
  (exists sim skills ms rc,
      chat_json lib (sent w) (score_request tj tr) = inr (JDict sim)
      /\ chat_json lib (sent w ++ [score_request tj tr]) (skills_request tj tr)
         = inr (JDict skills)
      /\ render_missing (dict_get skills (lit "missing_skills") (JList [])) = inr ms
      /\ chat_json lib (sent w ++ [score_request tj tr; skills_request tj tr])
           (recommend_request tj tr ms) = inr (JDict rc)
      /\ remote_steps lib tj tr w
         = (Ok (results_of sim skills (dict_get rc (lit "recommendations") (JList []))),
            mkWorld (fs w)
              (sent w ++ [score_request tj tr; skills_request tj tr;
                          recommend_request tj tr ms])
              (attempts w)))
  \/ (exists e w',
        remote_steps lib tj tr w = (Raise e, w')
        /\ In (exn_cls e) [Exception_; AttributeError; TypeError]
        /\ fs w' = fs w /\ attempts w' = attempts w).
Proof.
  unfold remote_steps, bind.
  rewrite calculate_similarity_score_run.
  destruct (chat_json lib (sent w) (score_request tj tr)) as [e1|v1] eqn:H1.
  { right. do 2 eexists. split; [reflexivity|]. simpl. auto. }
  rewrite extract_skills_run. cbn [fs sent attempts].
  destruct (chat_json lib (sent w ++ [score_request tj tr]) (skills_request tj tr))
    as [e2|v2] eqn:H2.
  { right. do 2 eexists. split; [reflexivity|]. simpl. auto. }
  destruct v2 as [| | | | |l2|skills];
    try (right; do 2 eexists; split; [reflexivity|]; simpl; now auto).
  cbn [py_get lift ret].
  rewrite generate_recommendations_run. cbn [fs sent attempts].
  rewrite <- !app_assoc. cbn [app].
  destruct (render_missing (dict_get skills (lit "missing_skills") (JList [])))
    as [e3|ms] eqn:H3.
  { right. do 2 eexists. split; [reflexivity|]. cbn [fs attempts].
    split; [|now split].
    unfold render_missing in H3. destruct (truthy _); [|discriminate].
    unfold join_comma in H3.
    destruct (dict_get skills (lit "missing_skills") (JList [])) as [| | | | |l|d];
      try (injection H3 as <-; simpl; now auto); try discriminate.
    destruct (str_items l 0) as [e|ts] eqn:Hs; [|discriminate].
    injection H3 as ->. clear - Hs. revert Hs. generalize 0%nat.
    induction l as [|v l IH]; intros i Hs; [discriminate|].
    simpl in Hs.
    destruct v; try (injection Hs as <-; simpl; now auto).
    destruct (str_items l (S i)) eqn:Hl; [|discriminate].
    injection Hs as <-. eapply IH. exact Hl. }
  destruct (chat_json lib (sent w ++ [score_request tj tr; skills_request tj tr])
              (recommend_request tj tr ms)) as [e4|v4] eqn:H4.
  { right. do 2 eexists. split; [reflexivity|]. simpl. auto. }
  destruct v4 as [| | | | |l4|rc];
    try (right; do 2 eexists; split; [reflexivity|]; simpl; now auto).
  destruct v1 as [| | | | |l1|sim];
    try (right; do 2 eexists; split; [reflexivity|]; simpl; now auto).
  left. exists sim, skills, ms, rc. repeat split; try assumption.
  rewrite compile_results_dicts, <- app_assoc. reflexivity.
Qed.

Lemma remote_steps_run (tj tr : pystr) (w : world)
    (sim skills : list (pystr * json)) (ms : pystr) (rc : list (pystr * json)) :
  chat_json lib (sent w) (score_request tj tr) = inr (JDict sim) ->
  chat_json lib (sent w ++ [score_request tj tr]) (skills_request tj tr)
  = inr (JDict skills) ->
  render_missing (dict_get skills (lit "missing_skills") (JList [])) = inr ms ->
  chat_json lib (sent w ++ [score_request tj tr; skills_request tj tr])
    (recommend_request tj tr ms) = inr (JDict rc) ->
  remote_steps lib tj tr w
  = (Ok (results_of sim skills (dict_get rc (lit "recommendations") (JList []))),
     mkWorld (fs w)
       (sent w ++ [score_request tj tr; skills_request tj tr;
                   recommend_request tj tr ms])
       (attempts w)).
Proof.
  intros H1 H2 H3 H4. unfold remote_steps, bind.
  rewrite calculate_similarity_score_run, H1.
  rewrite extract_skills_run. cbn [fs sent attempts]. rewrite H2.
  cbn [py_get lift ret].
  rewrite generate_recommendations_run, H3. cbn [fs sent attempts].
  rewrite <- !app_assoc. cbn [app]. rewrite H4.
  reflexivity.
Qed.

Lemma results_of_dom (sim skills : list (pystr * json)) (recs : json) :
  dom (results_of sim skills recs) = result_keys.
Proof.
  unfold results_of, result_keys. rewrite !dom_insert_L, dom_empty_L.
  set_solver.
Qed.

Lemma text_or_file_plain (arg : pystr) (w : world) :
  isfile arg w = false -> text_or_file lib arg w = (Ok arg, w).
Proof. intros H. unfold text_or_file. now rewrite H. Qed.

Lemma text_or_file_error (arg : pystr) (w w' : world) (e : exn) :
  text_or_file lib arg w = (Raise e, w') -> exn_cls e = Exception_.
Proof.
  unfold text_or_file. destruct (isfile arg w) eqn:Hi; [|discriminate].
  intros H. destruct (extract_text_from_file_error arg w w' e H)
    as [Hc|[Hx _]]; [exact Hc|].
  apply isfile_exists in Hi. congruence.
Qed.

(** C1, as the code has it.  Every [analyze] call either returns a dict
    with exactly the eight fields, after the three requests, or leaves
    with an exception and no result; a result is never partial.  The
    score of the result is the value that the scoring reply holds under
    [similarity_score], whatever it is, and 0 when the reply has no such
    key: the code checks neither its type nor its range.  The exception
    is an [Exception], a [ValueError], an [AttributeError] or a
    [TypeError]. *)
Theorem analyze_complete_or_error (job resume : pystr) (w : world) :
  (exists r w' tj tr sim,
      analyze lib job resume w = (Ok r, w')
      /\ dom r = result_keys
      /\ length (sent w') = (length (sent w) + 3)%nat
      /\ chat_json lib (sent w) (score_request tj tr) = inr (JDict sim)
      /\ r !! "similarity_score"
         = Some (dict_get sim (lit "similarity_score") (JInt 0)))
  \/ (exists e w',
        analyze lib job resume w = (Raise e, w')
        /\ In (exn_cls e) analyze_error_classes).
Proof.
  rewrite analyze_unfold.
  pose proof (text_or_file_store job w) as S1.
  destruct (text_or_file lib job w) as [[tj|e] w1] eqn:T1.
  2:{ right. exists e, w1. split; [reflexivity|].
      rewrite (text_or_file_error _ _ _ _ T1). simpl. auto. }
  pose proof (text_or_file_store resume w1) as S2.
  destruct (text_or_file lib resume w1) as [[tr|e] w2] eqn:T2.
  2:{ right. exists e, w2. split; [reflexivity|].
      rewrite (text_or_file_error _ _ _ _ T2). simpl. auto. }
  destruct (same_store_trans _ _ _ S1 S2) as [_ Hsent]. cbn [snd] in Hsent.
  destruct (blank tj); [right; do 2 eexists; split; [reflexivity|simpl; auto]|].
  destruct (blank tr); [right; do 2 eexists; split; [reflexivity|simpl; auto]|].
  destruct (remote_steps_cases tj tr w2)
    as [(sim & skills & ms & rc & H1 & H2 & H3 & H4 & ->)
       |(e & w' & -> & Hc & _)].
  - left. do 2 eexists. exists tj, tr, sim. split; [reflexivity|].
    split; [apply results_of_dom|]. cbn [sent].
    split; [rewrite length_app, Hsent; reflexivity|].
    split; [now rewrite <- Hsent|]. reflexivity.
  - right. exists e, w'. split; [reflexivity|].
    simpl in Hc. simpl. intuition.
Qed.

(** C2.  When the two texts are valid and the service answers the three
    requests with JSON objects, [analyze] does not fail, whichever keys
    the objects lack, and every field whose key is absent from its reply
    holds the default: 0 for the score, "Unknown" for the overall match,
    the empty string for the summary and the empty list for each of the
    five lists. *)
Theorem analyze_defaults_on_missing_keys (job resume : pystr) (w : world)
    (sim skills : list (pystr * json)) (ms : pystr) (rc : list (pystr * json)) :
  isfile job w = false -> isfile resume w = false ->
  blank job = false -> blank resume = false ->
  chat_json lib (sent w) (score_request job resume) = inr (JDict sim) ->
  chat_json lib (sent w ++ [score_request job resume]) (skills_request job resume)
  = inr (JDict skills) ->
  render_missing (dict_get skills (lit "missing_skills") (JList [])) = inr ms ->
  chat_json lib (sent w ++ [score_request job resume; skills_request job resume])
    (recommend_request job resume ms) = inr (JDict rc) ->
  exists r w',
    analyze lib job resume w = (Ok r, w')
    /\ (dict_lookup sim (lit "similarity_score") = None ->
        r !! "similarity_score" = Some (JInt 0))
    /\ (dict_lookup sim (lit "overall_match") = None ->
        r !! "overall_match" = Some (JStr (lit "Unknown")))
    /\ (dict_lookup sim (lit "key_strengths") = None ->
        r !! "key_strengths" = Some (JList []))
    /\ (dict_lookup sim (lit "analysis_summary") = None ->
        r !! "analysis_summary" = Some (JStr []))
    /\ (dict_lookup skills (lit "matching_skills") = None ->
        r !! "matching_skills" = Some (JList []))
    /\ (dict_lookup skills (lit "missing_skills") = None ->
        r !! "missing_skills" = Some (JList []))
    /\ (dict_lookup skills (lit "partial_matches") = None ->
        r !! "partial_matches" = Some (JList []))
    /\ (dict_lookup rc (lit "recommendations") = None ->
        r !! "recommendations" = Some (JList [])).
Proof.
  intros Fj Fr Bj Br H1 H2 H3 H4.
  rewrite analyze_unfold, (text_or_file_plain job w Fj),
    (text_or_file_plain resume w Fr), Bj, Br.
  rewrite (remote_steps_run job resume w sim skills ms rc H1 H2 H3 H4).
  do 2 eexists. split; [reflexivity|].
  unfold results_of, dict_get.
  repeat split; intros ->; reflexivity.
Qed.

(** C3, as the code has it.  Arguments that name existing files are
    first replaced with the text extracted from them.  When both
    arguments have become text and one of the two texts is empty after
    trimming, [analyze] raises [ValueError] and has issued no request. *)
Theorem analyze_validates_before_remote (job resume : pystr) (w : world)
    (tj tr : pystr) (w1 w2 : world) :
  text_or_file lib job w = (Ok tj, w1) ->
  text_or_file lib resume w1 = (Ok tr, w2) ->
  blank tj = true \/ blank tr = true ->
  exists e,
    analyze lib job resume w = (Raise e, w2)
    /\ exn_cls e = ValueError
    /\ sent w2 = sent w.
Proof.
  intros T1 T2 Hb.
  pose proof (text_or_file_store job w) as S1. rewrite T1 in S1.
  pose proof (text_or_file_store resume w1) as S2. rewrite T2 in S2.
  destruct (same_store_trans _ _ _ S1 S2) as [_ Hsent]. cbn [snd] in Hsent.
  rewrite analyze_unfold, T1, T2.
  destruct (blank tj) eqn:Bj; [eauto|].
  destruct Hb as [Hb|Hb]; [discriminate|]. rewrite Hb. eauto.
Qed.


(** C10.  The dict that a successful [analyze] returns has exactly the
    eight keys [similarity_score], [overall_match], [key_strengths],
    [analysis_summary], [matching_skills], [missing_skills],
    [partial_matches] and [recommendations], whatever keys the replies
    have. *)
Theorem analyze_result_keys (job resume : pystr) (w w' : world)
    (r : gmap string json) :
  analyze lib job resume w = (Ok r, w') ->
  dom r = result_keys.
Proof.
  intros Hrun. rewrite analyze_unfold in Hrun.
  destruct (text_or_file lib job w) as [[tj|e] w1]; [|discriminate].
  destruct (text_or_file lib resume w1) as [[tr|e] w2]; [|discriminate].
  destruct (blank tj); [discriminate|]. destruct (blank tr); [discriminate|].
  destruct (remote_steps_cases tj tr w2)
    as [(sim & skills & ms & rc & _ & _ & _ & _ & Hr)|(e & w0 & Hr & _)];
    rewrite Hr in Hrun; [|discriminate].
  injection Hrun as <- _. apply results_of_dom.
Qed.

End Orchestrator.

(* ===================================================================== *)
(** ** The upload parser *)
(* ===================================================================== *)

Section Upload.

Variable lib : Libs.

(** When the PDF extraction of an upload succeeds, the temporary file is
    removed again. *)
Lemma parse_contents_pdf_success (contents filename ct cs : pystr)
    (decoded : pybytes) (w w0 w1 : world) (text : pystr) :
  split_on 44 contents = [ct; cs] ->
  b64decode lib cs = inr decoded ->
  endswith filename (lit ".txt") = false ->
  endswith filename (lit ".pdf") = true ->
  write_bytes (lit "./tmp/" ++ filename) decoded w = (Ok tt, w0) ->
  _extract_from_pdf lib (lit "./tmp/" ++ filename) w0 = (Ok text, w1) ->
  exists w2,
    parse_contents lib true contents filename w = (Ok (Some text), w2)
    /\ fs w2 !! (lit "./tmp/" ++ filename) = None.
Proof.
  intros Hs Hd Ht Hp Hw He.
  pose proof (extract_from_pdf_store lib (lit "./tmp/" ++ filename) w0) as [Hfs _].
  rewrite He in Hfs. cbn [snd] in Hfs.
  assert (Hfile : fs w1 !! (lit "./tmp/" ++ filename) = Some (File decoded)).
  { rewrite Hfs. unfold write_bytes in Hw.
    destruct (valid_path _ && _); [|discriminate].
    destruct (fs w !! (lit "./tmp/" ++ filename)) as [[b|]|];
      try discriminate; injection Hw as <-; cbn [fs]; apply lookup_insert_eq. }
  unfold parse_contents, try_except, bind. rewrite Hs. unfold lift.
  rewrite Hd. unfold ret at 1. rewrite Ht, Hp, Hw.
  unfold analyzer_method. rewrite He.
  unfold remove. rewrite Hfile. unfold ret.
  eexists. split; [reflexivity|]. cbn [fs]. apply lookup_delete_eq.
Qed.

(** When the PDF extraction of an upload raises, the handler returns
    [None] and the temporary file stays where it was written. *)
Lemma parse_contents_pdf_failure (contents filename ct cs : pystr)
    (decoded : pybytes) (w w0 w1 : world) (e : exn) :
  split_on 44 contents = [ct; cs] ->
  b64decode lib cs = inr decoded ->
  endswith filename (lit ".txt") = false ->
  endswith filename (lit ".pdf") = true ->
  write_bytes (lit "./tmp/" ++ filename) decoded w = (Ok tt, w0) ->
  _extract_from_pdf lib (lit "./tmp/" ++ filename) w0 = (Raise e, w1) ->
  parse_contents lib true contents filename w = (Ok None, w1)
  /\ fs w1 !! (lit "./tmp/" ++ filename) = Some (File decoded).
Proof.
  intros Hs Hd Ht Hp Hw He.
  pose proof (extract_from_pdf_store lib (lit "./tmp/" ++ filename) w0) as [Hfs _].
  rewrite He in Hfs. cbn [snd] in Hfs.
  split.
  - unfold parse_contents, try_except, bind. rewrite Hs. unfold lift.
    rewrite Hd. unfold ret at 1. rewrite Ht, Hp, Hw.
    unfold analyzer_method. rewrite He. reflexivity.
  - rewrite Hfs. unfold write_bytes in Hw.
    destruct (valid_path _ && _); [|discriminate].
    destruct (fs w !! (lit "./tmp/" ++ filename)) as [[b|]|];
      try discriminate; injection Hw as <-; cbn [fs]; apply lookup_insert_eq.
Qed.

End Upload.

(* ===================================================================== *)
(** ** The statements at concrete inputs *)
(* ===================================================================== *)

(** C4.  The upload of a scanned PDF: both readers find no text, the
    extraction raises, [parse_contents] returns [None], and the file
    [./tmp/cv.pdf] that it wrote is still there afterwards (it was not
    there before).  The [os.remove] after the extraction is skipped by
    the exception. *)
Theorem parse_contents_leaks_temp_file :
  fs example_world !! lit "./tmp/cv.pdf" = None
  /\ fst (parse_contents example_lib true example_upload (lit "cv.pdf") example_world)
     = Ok None
  /\ fs (snd (parse_contents example_lib true example_upload (lit "cv.pdf")
                example_world)) !! lit "./tmp/cv.pdf"
     = Some (File (bytes_of "%PDF-1.4")).
Proof. vm_compute. repeat split. Qed.

(** The run of [analyze] at the example service. *)
Lemma example_run :
  analyze example_lib example_job example_resume example_world
  = (Ok (results_of example_score example_skills
           (JList [JStr (lit "Mention AWS projects")])),
     mkWorld example_fs
       [score_request example_job example_resume;
        skills_request example_job example_resume;
        recommend_request example_job example_resume (lit "AWS, Docker")]
       []).
Proof.
  rewrite analyze_unfold.
  rewrite (text_or_file_plain example_lib example_job example_world eq_refl).
  rewrite (text_or_file_plain example_lib example_resume example_world eq_refl).
  replace (blank example_job) with false by reflexivity.
  replace (blank example_resume) with false by reflexivity.
  exact (remote_steps_run example_lib example_job example_resume example_world
           example_score example_skills (lit "AWS, Docker")
           example_recommendations eq_refl eq_refl eq_refl eq_refl).
Qed.

(** C1 as stated fails: the example service answers the scoring request
    with a score of 150, and [analyze] returns it. *)
Lemma analyze_score_out_of_range :
  ~ (forall (lib : Libs) (job resume : pystr) (w : world),
        blank job = false -> blank resume = false ->
        (exists r w' n,
            analyze lib job resume w = (Ok r, w')
            /\ dom r = result_keys
            /\ r !! "similarity_score" = Some (JInt n)
            /\ (0 <= n <= 100)%Z)
        \/ (exists e w', analyze lib job resume w = (Raise e, w'))).
Proof.
  intros H.
  destruct (H example_lib example_job example_resume example_world
              eq_refl eq_refl)
    as [(r & w' & n & Hrun & _ & Hs & Hn)|(e & w' & Hrun)];
    rewrite example_run in Hrun; [|discriminate].
  injection Hrun as <- _.
  unfold results_of in Hs. rewrite lookup_insert_eq in Hs.
  assert (n = 150%Z) by (vm_compute in Hs; congruence). lia.
Qed.

(** C3 as stated fails: with an empty job description and a resume
    argument that names a legacy Word file, the call ends with the
    exception of the extractor, which is not a [ValueError]. *)
Lemma analyze_empty_job_legacy_resume :
  ~ (forall (lib : Libs) (job resume : pystr) (w : world),
        blank job = true \/ blank resume = true ->
        exists e w',
          analyze lib job resume w = (Raise e, w')
          /\ exn_cls e = ValueError
          /\ sent w' = sent w).
Proof.
  intros H.
  destruct (H example_lib [] (lit "cv.doc") example_world (or_introl eq_refl))
    as (e & w' & Hrun & Hc & _).
  vm_compute in Hrun. injection Hrun as <- _. discriminate.
Qed.

(** C8 as stated fails: ASCII content with a CR LF line end comes back
    with LF alone. *)
Lemma txt_crlf_not_preserved :
  ~ (forall (lib : Libs) (path : pystr) (w : world) (b : pybytes),
        valid_path path = true ->
        fs w !! path = Some (File b) ->
        lower (suffix path) = lit ".txt" ->
        is_ascii b = true ->
        fst (extract_text_from_file lib path w) = Ok (decode_latin1 b)).
Proof.
  intros H.
  specialize (H example_lib (lit "crlf.txt") example_world crlf_bytes
                eq_refl eq_refl eq_refl eq_refl).
  vm_compute in H. discriminate.
Qed.

(** C2 at the example service, whose skills reply has no
    [partial_matches] and whose scoring reply has no [overall_match]. *)
Lemma analyze_defaults_witness :
  exists r w',
    analyze example_lib example_job example_resume example_world = (Ok r, w')
    /\ r !! "partial_matches" = Some (JList [])
    /\ r !! "overall_match" = Some (JStr (lit "Unknown")).
Proof.
  destruct (analyze_defaults_on_missing_keys example_lib example_job
              example_resume example_world example_score example_skills
              (lit "AWS, Docker") example_recommendations
              eq_refl eq_refl eq_refl eq_refl eq_refl eq_refl eq_refl eq_refl)
    as (r & w' & Hrun & _ & Hom & _ & _ & _ & _ & Hpm & _).
  exists r, w'. split; [exact Hrun|].
  split; [apply Hpm|apply Hom]; reflexivity.
Defined.

(** C3 at the empty resume. *)
Lemma analyze_empty_resume_witness :
  exists e,
    analyze example_lib example_job [] example_world = (Raise e, example_world)
    /\ exn_cls e = ValueError
    /\ sent example_world = sent example_world.
Proof.
  apply (analyze_validates_before_remote example_lib example_job []
           example_world example_job [] example_world example_world).
  - reflexivity.
  - reflexivity.
  - right. reflexivity.
Defined.

(** C5 at the legacy Word file of the example filesystem. *)
Lemma doc_files_are_rejected_witness :
  extract_text_from_file example_lib (lit "cv.doc") example_world
  = (Raise (mkExn Exception_ legacy_doc_message), example_world)
  /\ attempts (snd (extract_text_from_file example_lib (lit "cv.doc") example_world))
     = attempts example_world
  /\ exists pre post,
       legacy_doc_message
       = pre ++ lit "Please convert your file to .docx format" ++ post.
Proof.
  apply (doc_files_are_rejected example_lib (lit "cv.doc") example_world).
  - reflexivity.
  - reflexivity.
Defined.

(** C7 at the document with the paragraphs "Alice" and "Engineer". *)
Lemma docx_alice_engineer_witness :
  extract_text_from_file example_lib (lit "cv.docx") example_world
  = (Ok (lit "Alice" ++ [NL] ++ lit "Engineer"),
     mkWorld example_fs [] [(Docx, lit "cv.docx")]).
Proof.
  apply (docx_extraction_text example_lib (lit "cv.docx") example_world
           (bytes_of "PK") alice_doc).
  - reflexivity.
  - reflexivity.
  - reflexivity.
  - reflexivity.
Defined.

(** C8 at a text file without carriage return and at a Latin-1 file. *)
Lemma txt_extraction_witness :
  fst (extract_text_from_file example_lib (lit "jd.txt") example_world)
  = Ok (lit "Python developer")
  /\ fst (extract_text_from_file example_lib (lit "latin.txt") example_world)
     = Ok (lit "caf" ++ [233]).
Proof.
  split.
  - apply (txt_extraction_text example_lib (lit "jd.txt") example_world
             (bytes_of "Python developer") eq_refl eq_refl eq_refl);
      reflexivity.
  - rewrite (proj2 (txt_extraction_text example_lib (lit "latin.txt")
                      example_world (bytes_of "caf" ++ [Byte.xe9])
                      eq_refl eq_refl eq_refl) eq_refl).
    reflexivity.
Defined.

(** C10 at the example service, whose last reply has an extra key. *)
Lemma analyze_result_keys_witness :
  dom (results_of example_score example_skills
         (JList [JStr (lit "Mention AWS projects")]))
  = result_keys.
Proof.
  apply (analyze_result_keys example_lib example_job example_resume
           example_world
           (mkWorld example_fs
              [score_request example_job example_resume;
               skills_request example_job example_resume;
               recommend_request example_job example_resume (lit "AWS, Docker")]
              [])).
  reflexivity.
Defined.


(** C6 at the scanned PDF, where both readers are tried and the
    extraction raises. *)
Lemma pdf_extraction_example :
  exists e,
    _extract_from_pdf example_lib (lit "cv.doc") example_world
    = (Raise e, mkWorld example_fs []
                  [(Pdfplumber, lit "cv.doc"); (PyPDF2, lit "cv.doc")])
    /\ exn_str e
       = lit "Failed to extract text from PDF: No text could be extracted from PDF".
Proof. eexists. split; vm_compute; reflexivity. Qed.

(* ===================================================================== *)
(** ** More on the orchestrator: the requests of one call *)
(* ===================================================================== *)

Section Requests.

Variable lib : Libs.

(** The items of a list of strings are the strings. *)
Lemma str_items_strings (ss : list pystr) (i : nat) :
  str_items (List.map JStr ss) i = inr ss.
Proof.
  revert i. induction ss as [|t ss IH]; intros i; simpl; [reflexivity|].
  now rewrite IH.
Qed.

(** What [str_items] raises is a [TypeError]. *)
Lemma str_items_error (l : list json) (i : nat) (e : exn) :
  str_items l i = inl e -> exn_cls e = TypeError.
Proof.
  revert i. induction l as [|v l IH]; intros i Hs; [discriminate|].
  simpl in Hs.
  destruct v; try (injection Hs as <-; reflexivity).
  destruct (str_items l (S i)) eqn:Hl; [|discriminate].
  injection Hs as <-. eapply IH. exact Hl.
Qed.

Lemma render_missing_strings (ss : list pystr) :
  render_missing (JList (List.map JStr ss))
  = inr (match ss with
         | [] => lit "None identified"
         | _ => join (lit ", ") ss
         end).
Proof.
  destruct ss as [|t ss]; [reflexivity|].
  unfold render_missing, join_comma. cbn [truthy List.map].
  change (JStr t :: List.map JStr ss) with (List.map JStr (t :: ss)).
  now rewrite str_items_strings.
Qed.

(** The requests of the three steps, whatever their outcome: the first
    one, two or three of score, skills, recommendations, in this order
    and on the same two texts; files stay as they are. *)
Lemma remote_steps_trace (tj tr : pystr) (w : world) :
  exists k ms,
    (1 <= k <= 3)%nat
    /\ sent (snd (remote_steps lib tj tr w))
       = sent w ++ take k [score_request tj tr; skills_request tj tr;
                           recommend_request tj tr ms]
    /\ fs (snd (remote_steps lib tj tr w)) = fs w
    /\ (forall r, fst (remote_steps lib tj tr w) = Ok r -> k = 3%nat).
Proof.
  unfold remote_steps, bind.
  rewrite calculate_similarity_score_run.
  destruct (chat_json lib (sent w) (score_request tj tr)) as [e1|v1].
  { exists 1%nat, []. repeat split; [lia|lia|discriminate]. }
  rewrite extract_skills_run. cbn [fs sent attempts].
  destruct (chat_json lib (sent w ++ [score_request tj tr]) (skills_request tj tr))
    as [e2|v2].
  { exists 2%nat, []. cbn [snd fst sent fs take].
    rewrite <- app_assoc. repeat split; [lia|lia|discriminate]. }
  assert (Htwo : forall (e : exn) (o : outcome (gmap string json)),
             o = Raise e ->
             exists k ms,
               (1 <= k <= 3)%nat
               /\ sent (snd (o, mkWorld (fs w)
                                  ((sent w ++ [score_request tj tr])
                                   ++ [skills_request tj tr]) (attempts w)))
                  = sent w ++ take k [score_request tj tr; skills_request tj tr;
                                      recommend_request tj tr ms]
               /\ fs (snd (o, mkWorld (fs w)
                                ((sent w ++ [score_request tj tr])
                                 ++ [skills_request tj tr]) (attempts w))) = fs w
               /\ (forall r, fst (o, mkWorld (fs w)
                                       ((sent w ++ [score_request tj tr])
                                        ++ [skills_request tj tr]) (attempts w))
                             = Ok r -> k = 3%nat)).
  { intros e o ->. exists 2%nat, []. cbn [snd fst sent fs take].
    rewrite <- app_assoc. repeat split; [lia|lia|discriminate]. }
  destruct v2 as [| | | | |l2|skills];
    try (eapply Htwo; reflexivity).
  cbn [py_get lift ret].
  rewrite generate_recommendations_run.
  destruct (render_missing (dict_get skills (lit "missing_skills") (JList [])))
    as [e3|ms]; [eapply Htwo; reflexivity|].
  cbn [fs sent attempts]. clear Htwo.
  exists 3%nat, ms. cbn [take].
  destruct (chat_json lib _ (recommend_request tj tr ms)) as [e4|v4];
    [|destruct v4; try destruct v1];
    cbn [snd fst sent fs compile_results py_get lift bind ret raise];
    rewrite <- !app_assoc; repeat split; lia.
Qed.

(** X1.  One [analyze] call issues at most three requests, never one
    twice: the requests it has sent are the first [k] of score, skills,
    recommendations, in this order and all on the same two texts, and a
    call that returns a result has sent all three. *)
Theorem analyze_request_trace (job resume : pystr) (w : world) :
  exists tj tr ms k,
    (k <= 3)%nat
    /\ sent (snd (analyze lib job resume w))
       = sent w ++ take k [score_request tj tr; skills_request tj tr;
                           recommend_request tj tr ms]
    /\ (forall r, fst (analyze lib job resume w) = Ok r -> k = 3%nat).
Proof.
  rewrite analyze_unfold.
  pose proof (text_or_file_store lib job w) as S1.
  destruct (text_or_file lib job w) as [[tj|e] w1].
  2:{ destruct S1 as [_ S1]. exists [], [], [], 0%nat. cbn [snd fst take] in *.
      rewrite app_nil_r. repeat split; [lia|congruence|discriminate]. }
  pose proof (text_or_file_store lib resume w1) as S2.
  destruct (text_or_file lib resume w1) as [[tr|e] w2].
  2:{ destruct (same_store_trans _ _ _ S1 S2) as [_ S]. exists [], [], [], 0%nat.
      cbn [snd fst take] in *.
      rewrite app_nil_r. repeat split; [lia|congruence|discriminate]. }
  destruct (same_store_trans _ _ _ S1 S2) as [_ S]. cbn [snd] in S.
  assert (Hnone : forall e : exn,
             exists tj tr ms k,
               (k <= 3)%nat
               /\ sent (snd (@Raise (gmap string json) e, w2))
                  = sent w ++ take k [score_request tj tr; skills_request tj tr;
                                      recommend_request tj tr ms]
               /\ (forall r, fst (@Raise (gmap string json) e, w2) = Ok r
                             -> k = 3%nat)).
  { intros e. exists [], [], [], 0%nat. cbn [snd fst take].
    rewrite app_nil_r. repeat split; [lia|congruence|discriminate]. }
  destruct (blank tj); [apply Hnone|]. destruct (blank tr); [apply Hnone|].
  destruct (remote_steps_trace tj tr w2) as (k & ms & Hk & Hs & _ & Hok).
  exists tj, tr, ms, k. rewrite Hs, S. repeat split; [lia|exact Hok].
Qed.

(** X2.  An argument that names no existing file is analysed as it is,
    also when it looks like a path: with two such arguments that are not
    blank, the first request carries exactly the two arguments. *)
Theorem analyze_sends_plain_arguments (job resume : pystr) (w : world) :
  isfile job w = false -> isfile resume w = false ->
  blank job = false -> blank resume = false ->
  exists rest,
    sent (snd (analyze lib job resume w))
    = sent w ++ score_request job resume :: rest.
Proof.
  intros Fj Fr Bj Br.
  rewrite analyze_unfold, (text_or_file_plain lib job w Fj),
    (text_or_file_plain lib resume w Fr), Bj, Br.
  destruct (remote_steps_trace job resume w) as (k & ms & Hk & Hs & _).
  rewrite Hs. destruct k as [|k]; [lia|]. cbn [take]. eauto.
Qed.

(** X3.  When the scoring call fails, [analyze] stops there: it raises
    [Exception] with the message
    "Error calculating similarity score: " followed by the cause, and
    the scoring request is the only one it has sent. *)
Theorem analyze_scoring_failure_aborts (job resume : pystr) (w : world) (e : exn) :
  isfile job w = false -> isfile resume w = false ->
  blank job = false -> blank resume = false ->
  chat_json lib (sent w) (score_request job resume) = inl e ->
  analyze lib job resume w
  = (Raise (mkExn Exception_
              (lit "Error calculating similarity score: " ++ exn_str e)),
     mkWorld (fs w) (sent w ++ [score_request job resume]) (attempts w)).
Proof.
  intros Fj Fr Bj Br H1.
  rewrite analyze_unfold, (text_or_file_plain lib job w Fj),
    (text_or_file_plain lib resume w Fr), Bj, Br.
  unfold remote_steps, bind. rewrite calculate_similarity_score_run, H1.
  reflexivity.
Qed.

(** X4.  A scoring reply that is JSON but not an object is noticed only
    in the merge: all three requests have been sent when [analyze]
    raises, and what it raises is the [AttributeError] of the [.get]
    call, not an [Exception] that names the step. *)
Theorem analyze_scoring_reply_not_object (job resume : pystr) (w : world)
    (v : json) (skills : list (pystr * json)) (ms : pystr)
    (rc : list (pystr * json)) :
  isfile job w = false -> isfile resume w = false ->
  blank job = false -> blank resume = false ->
  (forall d, v <> JDict d) ->
  chat_json lib (sent w) (score_request job resume) = inr v ->
  chat_json lib (sent w ++ [score_request job resume]) (skills_request job resume)
  = inr (JDict skills) ->
  render_missing (dict_get skills (lit "missing_skills") (JList [])) = inr ms ->
  chat_json lib (sent w ++ [score_request job resume; skills_request job resume])
    (recommend_request job resume ms) = inr (JDict rc) ->
  analyze lib job resume w
  = (Raise (mkExn AttributeError
              (lit "'" ++ type_name v ++ lit "' object has no attribute 'get'")),
     mkWorld (fs w)
       (sent w ++ [score_request job resume; skills_request job resume;
                   recommend_request job resume ms])
       (attempts w)).
Proof.
  intros Fj Fr Bj Br Hv H1 H2 H3 H4.
  rewrite analyze_unfold, (text_or_file_plain lib job w Fj),
    (text_or_file_plain lib resume w Fr), Bj, Br.
  unfold remote_steps, bind. rewrite calculate_similarity_score_run, H1.
  rewrite extract_skills_run. cbn [fs sent attempts]. rewrite H2.
  cbn [py_get lift ret].
  rewrite generate_recommendations_run, H3. cbn [fs sent attempts].
  rewrite <- !app_assoc. cbn [app]. rewrite H4.
  destruct v; try reflexivity. now destruct (Hv d).
Qed.

(** X5.  A skills reply that is JSON but not an object makes [analyze]
    raise the [AttributeError] of [skills_result.get] after two
    requests; the recommendations are never asked for. *)
Theorem analyze_skills_reply_not_object (job resume : pystr) (w : world)
    (v1 v : json) :
  isfile job w = false -> isfile resume w = false ->
  blank job = false -> blank resume = false ->
  (forall d, v <> JDict d) ->
  chat_json lib (sent w) (score_request job resume) = inr v1 ->
  chat_json lib (sent w ++ [score_request job resume]) (skills_request job resume)
  = inr v ->
  analyze lib job resume w
  = (Raise (mkExn AttributeError
              (lit "'" ++ type_name v ++ lit "' object has no attribute 'get'")),
     mkWorld (fs w)
       (sent w ++ [score_request job resume; skills_request job resume])
       (attempts w)).
Proof.
  intros Fj Fr Bj Br Hv H1 H2.
  rewrite analyze_unfold, (text_or_file_plain lib job w Fj),
    (text_or_file_plain lib resume w Fr), Bj, Br.
  unfold remote_steps, bind. rewrite calculate_similarity_score_run, H1.
  rewrite extract_skills_run. cbn [fs sent attempts]. rewrite H2.
  rewrite <- !app_assoc. cbn [app].
  destruct v; try reflexivity. now destruct (Hv d).
Qed.

(** X6.  When the missing skills of the skills reply are a list with an
    item that is not a string, the join that builds the third prompt
    raises a [TypeError], which leaves [analyze] as it is, after two
    requests. *)
Theorem analyze_missing_skills_not_strings (job resume : pystr) (w : world)
    (v1 : json) (skills : list (pystr * json)) (l : list json) (e : exn) :
  isfile job w = false -> isfile resume w = false ->
  blank job = false -> blank resume = false ->
  chat_json lib (sent w) (score_request job resume) = inr v1 ->
  chat_json lib (sent w ++ [score_request job resume]) (skills_request job resume)
  = inr (JDict skills) ->
  dict_lookup skills (lit "missing_skills") = Some (JList l) ->
  str_items l 0 = inl e ->
  analyze lib job resume w
  = (Raise e,
     mkWorld (fs w)
       (sent w ++ [score_request job resume; skills_request job resume])
       (attempts w))
  /\ exn_cls e = TypeError.
Proof.
  intros Fj Fr Bj Br H1 H2 Hm He.
  split; [|exact (str_items_error l 0 e He)].
  rewrite analyze_unfold, (text_or_file_plain lib job w Fj),
    (text_or_file_plain lib resume w Fr), Bj, Br.
  unfold remote_steps, bind. rewrite calculate_similarity_score_run, H1.
  rewrite extract_skills_run. cbn [fs sent attempts]. rewrite H2.
  cbn [py_get lift ret].
  rewrite generate_recommendations_run. unfold dict_get. rewrite Hm.
  unfold render_missing, join_comma.
  destruct l as [|x l]; [discriminate|]. cbn [truthy]. rewrite He.
  rewrite <- !app_assoc. reflexivity.
Qed.

(** X7.  The third prompt names the missing skills of the skills reply:
    when they are a list of strings that is not empty, the request of
    the recommendations step carries them joined with ", ". *)
Theorem analyze_missing_skills_rendered (job resume : pystr) (w : world)
    (sim skills : list (pystr * json)) (ss : list pystr)
    (rc : list (pystr * json)) :
  isfile job w = false -> isfile resume w = false ->
  blank job = false -> blank resume = false ->
  ss <> [] ->
  chat_json lib (sent w) (score_request job resume) = inr (JDict sim) ->
  chat_json lib (sent w ++ [score_request job resume]) (skills_request job resume)
  = inr (JDict skills) ->
  dict_lookup skills (lit "missing_skills") = Some (JList (List.map JStr ss)) ->
  chat_json lib (sent w ++ [score_request job resume; skills_request job resume])
    (recommend_request job resume (join (lit ", ") ss)) = inr (JDict rc) ->
  sent (snd (analyze lib job resume w))
  = sent w ++ [score_request job resume; skills_request job resume;
               recommend_request job resume (join (lit ", ") ss)].
Proof.
  intros Fj Fr Bj Br Hss H1 H2 Hm H4.
  rewrite analyze_unfold, (text_or_file_plain lib job w Fj),
    (text_or_file_plain lib resume w Fr), Bj, Br.
  rewrite (remote_steps_run lib job resume w sim skills (join (lit ", ") ss) rc
             H1 H2); [reflexivity| |exact H4].
  unfold dict_get. rewrite Hm, render_missing_strings.
  destruct ss; [congruence|reflexivity].
Qed.

(** X8.  [analyze] reads files and never writes one: whatever the
    arguments, the replies and the outcome, the filesystem after the
    call is the filesystem before it. *)
Theorem analyze_keeps_files (job resume : pystr) (w : world) :
  fs (snd (analyze lib job resume w)) = fs w.
Proof.
  rewrite analyze_unfold.
  pose proof (text_or_file_store lib job w) as S1.
  destruct (text_or_file lib job w) as [[tj|e] w1]; [|exact (proj1 S1)].
  pose proof (text_or_file_store lib resume w1) as S2.
  destruct (text_or_file lib resume w1) as [[tr|e] w2];
    destruct (same_store_trans _ _ _ S1 S2) as [S _]; [|exact S].
  cbn [snd] in S.
  destruct (blank tj); [exact S|]. destruct (blank tr); [exact S|].
  destruct (remote_steps_trace tj tr w2) as (k & ms & _ & _ & Hfs & _).
  congruence.
Qed.

End Requests.

(* ===================================================================== *)
(** ** More on the extractor *)
(* ===================================================================== *)

Section Readers.

Variable lib : Libs.

Lemma filter_all_blank (l : list pystr) :
  forallb blank l = true -> List.filter (fun p => negb (blank p)) l = [].
Proof.
  induction l as [|p l IH]; simpl; [reflexivity|].
  intros H. apply andb_true_iff in H as [Hp Hl]. now rewrite Hp, IH.
Qed.

(** The run of the extractor on a Word file that python-docx opens. *)
Lemma extract_text_from_file_docx (path : pystr) (w : world) (b : pybytes)
    (doc : docx) :
  valid_path path = true ->
  fs w !! path = Some (File b) ->
  lower (suffix path) = lit ".docx" ->
  Document lib b = inr doc ->
  extract_text_from_file lib path w
  = (Ok (docx_text_spec doc),
     mkWorld (fs w) (sent w) (attempts w ++ [(Docx, path)])).
Proof.
  intros Hv Hf Hs Hd.
  unfold extract_text_from_file.
  rewrite (exists_file path w b Hv Hf), Hs. simpl.
  unfold _extract_from_docx, try_except, bind, note. cbv beta.
  rewrite (read_bytes_noted path w b _ _ Hv Hf). unfold lift. rewrite Hd.
  unfold ret. now rewrite docx_loops_spec.
Qed.

(** X9.  The extractor raises two kinds of exception only.  For a path
    that does not exist it is [FileNotFoundError] with
    "File not found: " and the path, and nothing has been tried.  For a
    path that exists it is an [Exception]: the refusal of the legacy
    format, or "Error reading file ", the path, ": " and the message of
    what went wrong; an exception of a library never comes out as it
    is. *)
Theorem extract_errors_classified (path : pystr) (w w' : world) (e : exn) :
  extract_text_from_file lib path w = (Raise e, w') ->
  (exists_ path w = false
   /\ e = mkExn FileNotFoundError (lit "File not found: " ++ path)
   /\ w' = w)
  \/ (exists_ path w = true
      /\ exn_cls e = Exception_
      /\ (exn_str e = legacy_doc_message
          \/ exists cause,
               exn_str e = lit "Error reading file " ++ path ++ lit ": " ++ cause)).
Proof.
  unfold extract_text_from_file.
  destruct (exists_ path w); cbn [negb].
  2:{ intros [= <- <-]. left. repeat split. }
  destruct (bool_decide (lower (suffix path) = lit ".doc")).
  { intros [= <- _]. right. repeat split. now left. }
  unfold try_except.
  destruct (if bool_decide _ then _ else _) as [[t|e0] w0]; [discriminate|].
  unfold raise. intros [= <- _]. right. repeat split. right. eauto.
Qed.

(** X10.  Extraction only reads: whatever the path and the outcome, no
    file is changed and no request is sent. *)
Theorem extract_is_read_only (path : pystr) (w : world) :
  fs (snd (extract_text_from_file lib path w)) = fs w
  /\ sent (snd (extract_text_from_file lib path w)) = sent w.
Proof. exact (extract_text_from_file_store lib path w). Qed.

(** X11.  A file with any extension other than [.doc], [.pdf] and
    [.docx] (or with none) is read as UTF-8 text: the result is its
    decoded content with universal newlines, and no document reader is
    tried. *)
Theorem unknown_extension_read_as_text (path : pystr) (w : world) (b : pybytes)
    (t : pystr) :
  valid_path path = true ->
  fs w !! path = Some (File b) ->
  lower (suffix path) <> lit ".doc" ->
  lower (suffix path) <> lit ".pdf" ->
  lower (suffix path) <> lit ".docx" ->
  decode_utf8 b = Some t ->
  extract_text_from_file lib path w
  = (Ok (universal_newlines t),
     mkWorld (fs w) (sent w) (attempts w ++ [(ReadText "utf-8", path)])).
Proof.
  intros Hv Hf N1 N2 N3 Hd.
  assert (Htxt : _extract_from_txt path w
                 = (Ok (universal_newlines t),
                    mkWorld (fs w) (sent w)
                      (attempts w ++ [(ReadText "utf-8", path)]))).
  { unfold _extract_from_txt, try_except_cls, read_text, bind, note. cbv beta.
    rewrite (read_bytes_noted path w b _ _ Hv Hf), Hd. reflexivity. }
  unfold extract_text_from_file.
  rewrite (exists_file path w b Hv Hf). cbn [negb].
  rewrite (bool_decide_eq_false_2 _ N1), (bool_decide_eq_false_2 _ N2),
    (bool_decide_eq_false_2 _ N3).
  unfold try_except.
  destruct (_ || _); now rewrite Htxt.
Qed.

(** X12.  The second PDF method goes on with the text of the first.
    When pdfplumber stopped with an exception, or read only blank text,
    and PyPDF2 reads the pages, the text returned is what pdfplumber had
    read followed by what PyPDF2 reads (so pages that both readers read
    come twice). *)
Theorem pdf_fallback_keeps_partial_text (path : pystr) (w : world) (b : pybytes)
    (pp : list (exn + option pystr)) (pages : list (exn + pystr))
    (t1 t2 : pystr) (err : option exn) :
  valid_path path = true ->
  fs w !! path = Some (File b) ->
  pdfplumber_open lib b = inr pp ->
  plumber_pages pp [] = (t1, err) ->
  err <> None \/ blank t1 = true ->
  PdfReader lib b = inr pages ->
  pypdf_pages pages [] = inr t2 ->
  blank (t1 ++ t2) = false ->
  _extract_from_pdf lib path w
  = (Ok (t1 ++ t2),
     mkWorld (fs w) (sent w)
       (attempts w ++ [(Pdfplumber, path); (PyPDF2, path)])).
Proof.
  intros Hv Hf Hp Hpp Hc Hr Hq Hb.
  assert (H1 : pdf_method1 lib path w
               = (Ok (t1, err),
                  mkWorld (fs w) (sent w) (attempts w ++ [(Pdfplumber, path)]))).
  { unfold pdf_method1, bind, note. cbv beta.
    rewrite (read_bytes_noted path w b _ _ Hv Hf). unfold lift. rewrite Hp.
    unfold ret. now rewrite Hpp. }
  assert (H2 : pdf_method2 lib path t1
                 (mkWorld (fs w) (sent w) (attempts w ++ [(Pdfplumber, path)]))
               = (Ok (t1 ++ t2),
                  mkWorld (fs w) (sent w)
                    (attempts w ++ [(Pdfplumber, path); (PyPDF2, path)]))).
  { unfold pdf_method2, try_except, bind, note. cbv beta. cbn [fs sent attempts].
    rewrite (read_bytes_noted path w b _ _ Hv Hf). unfold lift. rewrite Hr.
    unfold ret at 1. rewrite pypdf_pages_app, Hq. unfold ret at 1.
    rewrite Hb. cbn [negb]. unfold ret. now rewrite <- app_assoc. }
  unfold _extract_from_pdf, bind. rewrite H1.
  destruct err as [e|]; [exact H2|].
  destruct Hc as [Hc|Hc]; [congruence|]. rewrite Hc. exact H2.
Qed.

(** X13.  A Word file without text is no error for the extractor, which
    returns the empty string; [analyze] then refuses it: given as the
    job description, such a file makes the call raise [ValueError]
    "Job description cannot be empty", and no request is sent. *)
Theorem analyze_rejects_blank_docx (job resume : pystr) (w : world) (b : pybytes)
    (doc : docx) :
  valid_path job = true ->
  fs w !! job = Some (File b) ->
  lower (suffix job) = lit ".docx" ->
  Document lib b = inr doc ->
  forallb blank (paragraphs doc) = true ->
  forallb blank (concat (concat (tables doc))) = true ->
  isfile resume w = false ->
  extract_text_from_file lib job w
  = (Ok [], mkWorld (fs w) (sent w) (attempts w ++ [(Docx, job)]))
  /\ analyze lib job resume w
     = (Raise (mkExn ValueError (lit "Job description cannot be empty")),
        mkWorld (fs w) (sent w) (attempts w ++ [(Docx, job)])).
Proof.
  intros Hv Hf Hs Hd Hp Hc Fr.
  assert (He : extract_text_from_file lib job w
               = (Ok [], mkWorld (fs w) (sent w) (attempts w ++ [(Docx, job)]))).
  { rewrite (extract_text_from_file_docx job w b doc Hv Hf Hs Hd).
    unfold docx_text_spec.
    now rewrite (filter_all_blank _ Hp), (filter_all_blank _ Hc). }
  split; [exact He|].
  rewrite analyze_unfold. unfold text_or_file at 1.
  assert (Hi : isfile job w = true) by (unfold isfile; now rewrite Hv, Hf).
  rewrite Hi, He.
  rewrite (text_or_file_plain lib resume
             (mkWorld (fs w) (sent w) (attempts w ++ [(Docx, job)])) Fr).
  reflexivity.
Qed.

End Readers.

(* ===================================================================== *)
(** ** More on the upload parser *)
(* ===================================================================== *)

Section UploadParser.

Variable lib : Libs.

Lemma reads_only_at_refl (path : pystr) (w : world) : reads_only_at path w w.
Proof. split; [reflexivity|]. exists []. now rewrite app_nil_r. Qed.

Lemma reads_only_at_trans (path : pystr) (w1 w2 w3 : world) :
  reads_only_at path w1 w2 -> reads_only_at path w2 w3 ->
  reads_only_at path w1 w3.
Proof.
  intros [S1 (l1 & A1 & F1)] [S2 (l2 & A2 & F2)]. split; [congruence|].
  exists (l1 ++ l2). split.
  - now rewrite A2, A1, app_assoc.
  - apply Forall_app. now split.
Qed.

Lemma reads_only_at_same (path : pystr) (w w' : world) :
  sent w' = sent w -> attempts w' = attempts w -> reads_only_at path w w'.
Proof.
  intros Hs Ha. split; [exact Hs|]. exists []. now rewrite app_nil_r.
Qed.

Lemma write_bytes_reads (path : pystr) (b : pybytes) (w : world) :
  reads_only_at path w (snd (write_bytes path b w)).
Proof.
  unfold write_bytes. destruct (valid_path path && _); [|apply reads_only_at_refl].
  destruct (fs w !! path) as [[c|]|]; now apply reads_only_at_same.
Qed.

Lemma remove_reads (path : pystr) (w : world) :
  reads_only_at path w (snd (remove path w)).
Proof.
  unfold remove. destruct (fs w !! path) as [[c|]|]; now apply reads_only_at_same.
Qed.

Lemma reads_only_at_one (path : pystr) (w : world) (l : list (strategy * pystr)) :
  Forall (fun x : strategy * pystr => snd x = path) l ->
  reads_only_at path w (mkWorld (fs w) (sent w) (attempts w ++ l)).
Proof. intros Hl. split; [reflexivity|]. exists l. now split. Qed.

Lemma extract_from_pdf_reads (path : pystr) (w : world) :
  reads_only_at path w (snd (_extract_from_pdf lib path w)).
Proof.
  destruct (pdf_method1_total lib path w) as (t1 & err & H1).
  unfold _extract_from_pdf, bind. rewrite H1.
  set (w1 := mkWorld _ _ _).
  assert (R1 : reads_only_at path w w1)
    by (apply reads_only_at_one; repeat constructor).
  assert (R2 : reads_only_at path w (snd (pdf_method2 lib path t1 w1))).
  { eapply reads_only_at_trans; [exact R1|].
    destruct (pdf_method2_cases lib path t1 w1) as [(t & -> & _)|(e & -> & _)];
      apply (reads_only_at_one path w1); repeat constructor. }
  destruct err as [e|]; [exact R2|].
  destruct (blank t1); [exact R2|exact R1].
Qed.

Lemma extract_from_docx_reads (path : pystr) (w : world) :
  reads_only_at path w (snd (_extract_from_docx lib path w)).
Proof.
  unfold _extract_from_docx, try_except, bind, note. cbv beta.
  destruct (read_bytes path _) as [[b|e] w1] eqn:H1;
    apply read_bytes_world in H1; subst w1.
  - unfold lift. destruct (Document lib b);
      apply (reads_only_at_one path w); repeat constructor.
  - apply (reads_only_at_one path w); repeat constructor.
Qed.

(** The branch of [parse_contents] that goes through a temporary file,
    for either document reader. *)
Lemma temp_file_branch_reads (analyzer : bool) (name : string)
    (m : M pystr) (path : pystr) (decoded : pybytes) (w : world) :
  (forall w0, reads_only_at path w0 (snd (m w0))) ->
  reads_only_at path w
    (snd ((write_bytes path decoded ;;;
           text <- analyzer_method analyzer name m ;;
           remove path ;;;
           ret (Some text))%py w)).
Proof.
  intros Hm. unfold bind.
  pose proof (write_bytes_reads path decoded w) as T0.
  destruct (write_bytes path decoded w) as [[[]|e] w0]; [|exact T0].
  cbn [snd] in T0.
  assert (T1 : reads_only_at path w (snd (analyzer_method analyzer name m w0))).
  { unfold analyzer_method. destruct analyzer; [|exact T0].
    eapply reads_only_at_trans; [exact T0|]. apply Hm. }
  destruct (analyzer_method analyzer name m w0) as [[text|e] w1]; [|exact T1].
  cbn [snd] in T1.
  pose proof (remove_reads path w1) as T2.
  destruct (remove path w1) as [[[]|e] w2];
    exact (reads_only_at_trans _ _ _ _ T1 T2).
Qed.

(** What [parse_contents] does, whatever the upload. *)
Lemma parse_contents_frame (analyzer : bool) (contents filename : pystr)
    (w : world) :
  exists r w',
    parse_contents lib analyzer contents filename w = (Ok r, w')
    /\ sent w' = sent w
    /\ exists l, attempts w' = attempts w ++ l
                 /\ Forall (fun x : strategy * pystr =>
                              snd x = lit "./tmp/" ++ filename) l.
Proof.
  assert (Hwrap : forall m : M (option pystr),
             reads_only_at (lit "./tmp/" ++ filename) w (snd (m w)) ->
             exists r w',
               try_except m (fun _ => ret None) w = (Ok r, w')
               /\ sent w' = sent w
               /\ exists l, attempts w' = attempts w ++ l
                            /\ Forall (fun x : strategy * pystr =>
                                         snd x = lit "./tmp/" ++ filename) l).
  { intros m. unfold try_except, ret.
    destruct (m w) as [[r|e] w']; intros [Hs Hf]; eauto. }
  unfold parse_contents. apply Hwrap.
  destruct (split_on 44 contents) as [|ct [|cs [|x rest]]];
    try apply reads_only_at_refl.
  unfold bind at 1. unfold lift.
  destruct (b64decode lib cs) as [e|decoded]; [apply reads_only_at_refl|].
  unfold ret at 1.
  destruct (endswith filename (lit ".txt")).
  { destruct (decode_utf8 decoded); apply reads_only_at_refl. }
  destruct (endswith filename (lit ".pdf")).
  { apply temp_file_branch_reads. apply extract_from_pdf_reads. }
  destruct (endswith filename (lit ".docx")); [|apply reads_only_at_refl].
  apply temp_file_branch_reads. apply extract_from_docx_reads.
Qed.

(** X14.  [parse_contents] never raises, whatever the upload, and sends
    no request; the document readers it invokes are invoked on
    [./tmp/<filename>] and on no other path. *)
Theorem parse_contents_is_safe (analyzer : bool) (contents filename : pystr)
    (w : world) :
  exists r w',
    parse_contents lib analyzer contents filename w = (Ok r, w')
    /\ sent w' = sent w
    /\ exists l, attempts w' = attempts w ++ l
                 /\ Forall (fun x : strategy * pystr =>
                              snd x = lit "./tmp/" ++ filename) l.
Proof. exact (parse_contents_frame analyzer contents filename w). Qed.

(** X15.  The upload parser goes by the end of the file name as it is
    written: a name that ends with none of [.txt], [.pdf] and [.docx]
    (such as [cv.PDF] or [cv.doc]) gives [None], and nothing is written
    or read. *)
Theorem parse_contents_unsupported_name (analyzer : bool)
    (contents filename : pystr) (w : world) :
  endswith filename (lit ".txt") = false ->
  endswith filename (lit ".pdf") = false ->
  endswith filename (lit ".docx") = false ->
  parse_contents lib analyzer contents filename w = (Ok None, w).
Proof.
  intros Ht Hp Hd. unfold parse_contents, try_except.
  destruct (split_on 44 contents) as [|ct [|cs [|x rest]]]; try reflexivity.
  unfold bind, lift.
  destruct (b64decode lib cs) as [e|decoded]; [reflexivity|].
  unfold ret at 1. now rewrite Ht, Hp, Hd.
Qed.

(** X16.  An uploaded [.txt] file is decoded as strict UTF-8 and nothing
    else: the text is returned without newline translation, content that
    is not valid UTF-8 gives [None] (there is no Latin-1 retry here), and
    no file is written. *)
Theorem parse_contents_txt (analyzer : bool) (contents filename ct cs : pystr)
    (decoded : pybytes) (w : world) :
  split_on 44 contents = [ct; cs] ->
  b64decode lib cs = inr decoded ->
  endswith filename (lit ".txt") = true ->
  parse_contents lib analyzer contents filename w = (Ok (decode_utf8 decoded), w).
Proof.
  intros Hs Hd Ht. unfold parse_contents, try_except. rewrite Hs.
  unfold bind, lift. rewrite Hd. unfold ret at 1. rewrite Ht.
  destruct (decode_utf8 decoded); reflexivity.
Qed.

Lemma write_bytes_ok (path : pystr) (b : pybytes) (w w0 : world) :
  write_bytes path b w = (Ok tt, w0) ->
  valid_path path = true
  /\ w0 = mkWorld (<[path := File b]> (fs w)) (sent w) (attempts w).
Proof.
  unfold write_bytes. destruct (valid_path path); [|discriminate].
  cbn [andb]. destruct (match dirname path with [] => _ | _ => _ end);
    [|discriminate].
  destruct (fs w !! path) as [[c|]|]; try discriminate; now intros [= <-].
Qed.

Lemma remove_noted (path : pystr) (w : world) (b : pybytes) s a :
  fs w !! path = Some (File b) ->
  remove path (mkWorld (fs w) s a) = (Ok tt, mkWorld (delete path (fs w)) s a).
Proof. intros Hf. unfold remove. cbn [fs sent attempts]. now rewrite Hf. Qed.

(** X17.  An uploaded [.docx] file goes through [./tmp/<filename>].  When
    python-docx opens it, the text of the document is returned and the
    temporary file is gone afterwards; when python-docx raises, the
    result is [None] and the temporary file is left behind. *)
Theorem parse_contents_docx (contents filename ct cs : pystr)
    (decoded : pybytes) (w w0 : world) :
  split_on 44 contents = [ct; cs] ->
  b64decode lib cs = inr decoded ->
  endswith filename (lit ".txt") = false ->
  endswith filename (lit ".pdf") = false ->
  endswith filename (lit ".docx") = true ->
  write_bytes (lit "./tmp/" ++ filename) decoded w = (Ok tt, w0) ->
  match Document lib decoded with
  | inr doc =>
      exists w2,
        parse_contents lib true contents filename w
        = (Ok (Some (docx_text_spec doc)), w2)
        /\ fs w2 !! (lit "./tmp/" ++ filename) = None
  | inl e =>
      exists w1,
        parse_contents lib true contents filename w = (Ok None, w1)
        /\ fs w1 !! (lit "./tmp/" ++ filename) = Some (File decoded)
  end.
Proof.
  intros Hs Hd Ht Hp Hx Hw.
  destruct (write_bytes_ok _ _ _ _ Hw) as [Hv Hw0].
  assert (Hf : fs w0 !! (lit "./tmp/" ++ filename) = Some (File decoded))
    by (subst w0; apply lookup_insert_eq).
  assert (He : _extract_from_docx lib (lit "./tmp/" ++ filename) w0
               = (match Document lib decoded with
                  | inr doc => Ok (docx_text_spec doc)
                  | inl e =>
                      Raise (mkExn Exception_
                               (lit "Failed to extract text from DOCX: "
                                ++ exn_str e))
                  end,
                  mkWorld (fs w0) (sent w0)
                    (attempts w0 ++ [(Docx, lit "./tmp/" ++ filename)]))).
  { unfold _extract_from_docx, try_except, bind, note. cbv beta.
    rewrite (read_bytes_noted _ w0 decoded _ _ Hv Hf). unfold lift.
    destruct (Document lib decoded) as [e|doc]; [reflexivity|].
    unfold ret. now rewrite docx_loops_spec. }
  unfold parse_contents, try_except, bind. rewrite Hs. unfold lift.
  rewrite Hd. change (ret decoded w) with (Ok decoded, w).
  rewrite Ht, Hp, Hx, Hw.
  unfold analyzer_method. rewrite He.
  destruct (Document lib decoded) as [e|doc].
  - unfold ret. eexists. split; [reflexivity|]. exact Hf.
  - rewrite (remove_noted _ w0 decoded _ _ Hf). unfold ret.
    eexists. split; [reflexivity|]. cbn [fs]. apply lookup_delete_eq.
Qed.

Lemma split_on_absent (sep : N) (t : pystr) :
  forallb (fun c => negb (c =? sep)) t = true -> split_on sep t = [t].
Proof.
  induction t as [|c t IH]; cbn [forallb split_on]; [reflexivity|].
  intros H. apply andb_true_iff in H as [Hc Ht].
  apply negb_true_iff in Hc. now rewrite Hc, (IH Ht).
Qed.

Lemma dirname_tmp (filename : pystr) :
  forallb (fun c => negb (c =? 47)) filename = true ->
  dirname (lit "./tmp/" ++ filename) = lit "./tmp".
Proof.
  intros H. unfold dirname.
  change (lit "./tmp/" ++ filename) with (46 :: 47 :: 116 :: 109 :: 112 :: 47 :: filename).
  cbn [split_on N.eqb Pos.eqb]. rewrite (split_on_absent 47 filename H).
  reflexivity.
Qed.

(** X18.  Nothing in the code creates the directory [./tmp].  Without
    it, every upload that is not a [.txt] file gives [None], and no file
    is written. *)
Theorem parse_contents_without_tmp (analyzer : bool) (contents filename : pystr)
    (w : world) :
  forallb (fun c => negb (c =? 47)) filename = true ->
  fs w !! lit "./tmp" <> Some Dir ->
  endswith filename (lit ".txt") = false ->
  parse_contents lib analyzer contents filename w = (Ok None, w).
Proof.
  intros Hn Hdir Ht.
  assert (Hw : forall b, write_bytes (lit "./tmp/" ++ filename) b w
                         = (Raise (mkExn FileNotFoundError
                                     (lit "[Errno 2] No such file or directory: '"
                                      ++ (lit "./tmp/" ++ filename) ++ lit "'")), w)).
  { intros b. unfold write_bytes. rewrite (dirname_tmp filename Hn).
    change (lit "./tmp") with [46; 47; 116; 109; 112] in *. cbv beta iota.
    destruct (fs w !! [46; 47; 116; 109; 112]) as [[c|]|] eqn:E;
      try (now rewrite andb_false_r). congruence. }
  unfold parse_contents, try_except.
  destruct (split_on 44 contents) as [|ct [|cs [|x rest]]]; try reflexivity.
  unfold bind, lift.
  destruct (b64decode lib cs) as [e|decoded]; [reflexivity|].
  unfold ret at 1. rewrite Ht.
  destruct (endswith filename (lit ".pdf")); [now rewrite Hw|].
  destruct (endswith filename (lit ".docx")); [now rewrite Hw|reflexivity].
Qed.

End UploadParser.

(* ===================================================================== *)
(** ** The callbacks of the home page *)
(* ===================================================================== *)

Section Callbacks.

Variable lib : Libs.
Variable layout : Type.
Variable create_results_layout : gmap string json -> exn + layout.


(** X19.  [handle_job_input] never raises and sends no request.  What it
    puts into the store is [None] or a text that is not empty, and there
    is a text in the store exactly when the status is a green alert. *)
Theorem handle_job_input_store (analyzer : bool)
    (upload_contents text_value filename : option pystr) (w : world) :
  exists c content w',
    handle_job_input lib layout analyzer upload_contents text_value filename w
    = (Ok (c, content), w')
    /\ sent w' = sent w
    /\ (content = None \/ str_truthy content = true)
    /\ (content <> None <-> exists t, c = Alert t "success").
Proof.
  unfold handle_job_input.
  assert (Htext :
    exists c content w',
      (if str_truthy text_value
       then ret (Alert ([10003] ++ lit " Text loaded") "success", text_value)
       else ret (@no_update layout, None)) w = (Ok (c, content), w')
      /\ sent w' = sent w
      /\ (content = None \/ str_truthy content = true)
      /\ (content <> None <-> exists t, c = Alert t "success")).
  { destruct (str_truthy text_value) eqn:Ht; unfold ret; do 3 eexists;
      (split; [reflexivity|]); (split; [reflexivity|]).
    - split; [now right|]. split; [eauto|].
      intros _ ->. discriminate.
    - split; [now left|]. split; [congruence|]. intros [t Ht']. discriminate. }
  destruct upload_contents as [[|c cs]|]; try exact Htext.
  unfold bind.
  destruct (parse_contents_frame lib analyzer (c :: cs)
              (default (lit "uploaded_file") (str_or filename None)) w)
    as (r & w' & -> & Hs & _).
  destruct (str_truthy r) eqn:Hr; unfold ret; do 3 eexists;
    (split; [reflexivity|]); (split; [exact Hs|]).
  - split; [now right|]. split; [eauto|].
    intros _ ->. discriminate.
  - split; [now left|]. split; [congruence|]. intros [t Ht']. discriminate.
Qed.

(** X20.  An upload whose name has no supported ending fails, also when
    a text was typed: the status is the red alert, the store is emptied,
    and nothing else happens.  An upload without a file name is such an
    upload, since it is parsed under the name [uploaded_file]. *)
Theorem handle_job_input_unsupported (analyzer : bool)
    (contents : pystr) (text_value filename : option pystr) (w : world) :
  contents <> [] ->
  endswith (default (lit "uploaded_file") (str_or filename None)) (lit ".txt") = false ->
  endswith (default (lit "uploaded_file") (str_or filename None)) (lit ".pdf") = false ->
  endswith (default (lit "uploaded_file") (str_or filename None)) (lit ".docx") = false ->
  handle_job_input lib layout analyzer (Some contents) text_value filename w
  = (Ok (Alert ([10007] ++ lit " Failed to load file") "danger", None), w).
Proof.
  intros Hc Ht Hp Hd. destruct contents as [|c cs]; [congruence|].
  unfold handle_job_input, bind.
  assert (Hparse : parse_contents lib analyzer (c :: cs)
                     (default (lit "uploaded_file") (str_or filename None)) w
                   = (Ok None, w)).
  { unfold parse_contents, try_except.
    destruct (split_on 44 (c :: cs)) as [|ct [|cs' [|x rest]]]; try reflexivity.
    unfold bind, lift.
    destruct (b64decode lib cs') as [e|decoded]; [reflexivity|].
    change (ret decoded w) with (Ok decoded, w). now rewrite Ht, Hp, Hd. }
  rewrite Hparse. reflexivity.
Qed.


(** X22.  A content that is not empty but consists of whitespace passes
    the check of [analyze_resume] and is refused by [analyze]: the user
    sees "Error during analysis: Job description cannot be empty", and
    no request is sent. *)
Theorem analyze_resume_blank_job (n : nat) (job resume : pystr) (w : world) :
  job <> [] -> blank job = true -> resume <> [] ->
  isfile job w = false -> isfile resume w = false ->
  analyze_resume lib layout create_results_layout true (Some (S n))
    (Some job) (Some resume) w
  = (Ok (Return
           (Alert ([10060] ++ lit " Error during analysis: "
                   ++ lit "Job description cannot be empty") "danger",
            None)),
     w).
Proof.
  intros Hj Hb Hr Fj Fr. unfold analyze_resume.
  destruct job as [|c job]; [congruence|]. destruct resume as [|d resume]; [congruence|].
  cbn [str_truthy negb orb]. unfold try_except, bind.
  change (default [] (Some (c :: job))) with (c :: job).
  change (default [] (Some (d :: resume))) with (d :: resume).
  rewrite analyze_unfold, (text_or_file_plain lib _ w Fj),
    (text_or_file_plain lib _ w Fr), Hb.
  reflexivity.
Qed.

(** X23.  The page loads with or without a key.  Its analyzer is missing
    exactly when [OPENAI_API_KEY] is unset or empty, and then every
    click on Analyze with both contents given ends with the alert
    "OpenAI API key not configured", with no file read and no request
    sent. *)
Theorem analyze_resume_without_key (getenv : option pystr) :
  exists o,
    home_analyzer getenv = inr o
    /\ (o = None <-> str_truthy getenv = false)
    /\ (o = None ->
        forall (n : nat) (job resume : pystr) (w : world),
          job <> [] -> resume <> [] ->
          analyze_resume lib layout create_results_layout false (Some (S n))
            (Some job) (Some resume) w
          = (Ok (Return
                   (Alert ([9888; 65039] ++ lit " OpenAI API key not configured")
                      "danger",
                    None)),
             w)).
Proof.
  assert (Hrun : forall (n : nat) (job resume : pystr) (w : world),
             job <> [] -> resume <> [] ->
             analyze_resume lib layout create_results_layout false (Some (S n))
               (Some job) (Some resume) w
             = (Ok (Return
                      (Alert ([9888; 65039] ++ lit " OpenAI API key not configured")
                         "danger",
                       None)),
                w)).
  { intros n [|c job] [|d resume] w Hj Hr; try congruence. reflexivity. }
  unfold home_analyzer, __init__, str_or. cbn [str_truthy].
  destruct getenv as [[|c k]|]; cbn [str_truthy].
  - exists None. repeat split; auto.
  - eexists. split; [reflexivity|]. split; [|discriminate].
    split; discriminate.
  - exists None. repeat split; auto.
Qed.

End Callbacks.

(* ===================================================================== *)
(** ** The colour of the match badge *)
(* ===================================================================== *)

Section Badge.

Variable lib : Libs.

(** X24.  When the scoring reply has no [overall_match], the result
    holds "Unknown", for which [get_match_color] gives the neutral
    colour [secondary]. *)
Theorem unknown_match_is_secondary (job resume : pystr) (w : world)
    (sim skills : list (pystr * json)) (ms : pystr) (rc : list (pystr * json)) :
  isfile job w = false -> isfile resume w = false ->
  blank job = false -> blank resume = false ->
  chat_json lib (sent w) (score_request job resume) = inr (JDict sim) ->
  chat_json lib (sent w ++ [score_request job resume]) (skills_request job resume)
  = inr (JDict skills) ->
  render_missing (dict_get skills (lit "missing_skills") (JList [])) = inr ms ->
  chat_json lib (sent w ++ [score_request job resume; skills_request job resume])
    (recommend_request job resume ms) = inr (JDict rc) ->
  dict_lookup sim (lit "overall_match") = None ->
  exists r w' v,
    analyze lib job resume w = (Ok r, w')
    /\ r !! "overall_match" = Some v
    /\ get_match_color v = inr (lit "secondary").
Proof.
  intros Fj Fr Bj Br H1 H2 H3 H4 Hm.
  rewrite analyze_unfold, (text_or_file_plain lib job w Fj),
    (text_or_file_plain lib resume w Fr), Bj, Br.
  rewrite (remote_steps_run lib job resume w sim skills ms rc H1 H2 H3 H4).
  do 3 eexists. split; [reflexivity|].
  unfold results_of, dict_get. rewrite Hm.
  split; [reflexivity|]. reflexivity.
Qed.

End Badge.

(* ===================================================================== *)
(** ** The further statements at concrete inputs *)
(* ===================================================================== *)

(** X2 at the paths of [main()], which name no file here. *)
Lemma analyze_sends_plain_arguments_witness :
  exists rest,
    sent (snd (analyze example_lib (lit "job_description.pdf") (lit "resume.pdf")
                 example_world))
    = sent example_world
      ++ score_request (lit "job_description.pdf") (lit "resume.pdf") :: rest.
Proof.
  apply (analyze_sends_plain_arguments example_lib (lit "job_description.pdf")
           (lit "resume.pdf") example_world); reflexivity.
Defined.

(** X3 at the service that cannot be reached. *)
Lemma analyze_scoring_failure_witness :
  analyze offline_lib example_job example_resume example_world
  = (Raise (mkExn Exception_
              (lit "Error calculating similarity score: "
               ++ lit "Connection error.")),
     mkWorld example_fs [score_request example_job example_resume] []).
Proof.
  apply (analyze_scoring_failure_aborts offline_lib example_job example_resume
           example_world (mkExn LibraryError (lit "Connection error.")));
    reflexivity.
Defined.

(** X4 at the service whose scoring reply is an array. *)
Lemma analyze_scoring_reply_not_object_witness :
  analyze array_score_lib example_job example_resume example_world
  = (Raise (mkExn AttributeError (lit "'list' object has no attribute 'get'")),
     mkWorld example_fs
       [score_request example_job example_resume;
        skills_request example_job example_resume;
        recommend_request example_job example_resume (lit "AWS, Docker")]
       []).
Proof.
  apply (analyze_scoring_reply_not_object array_score_lib example_job
           example_resume example_world (JList [JInt 87]) example_skills
           (lit "AWS, Docker") example_recommendations);
    try reflexivity.
  intros d. discriminate.
Defined.

(** X5 at the service whose skills reply is a string. *)
Lemma analyze_skills_reply_not_object_witness :
  analyze string_skills_lib example_job example_resume example_world
  = (Raise (mkExn AttributeError (lit "'str' object has no attribute 'get'")),
     mkWorld example_fs
       [score_request example_job example_resume;
        skills_request example_job example_resume]
       []).
Proof.
  apply (analyze_skills_reply_not_object string_skills_lib example_job
           example_resume example_world (JDict example_score)
           (JStr (lit "Python")));
    try reflexivity.
  intros d. discriminate.
Defined.

(** X6 at the service whose missing skills are numbers. *)
Lemma analyze_missing_skills_not_strings_witness :
  analyze numeric_skills_lib example_job example_resume example_world
  = (Raise (mkExn TypeError
              (lit "sequence item 0: expected str instance, int found")),
     mkWorld example_fs
       [score_request example_job example_resume;
        skills_request example_job example_resume]
       [])
  /\ exn_cls (mkExn TypeError
                (lit "sequence item 0: expected str instance, int found"))
     = TypeError.
Proof.
  apply (analyze_missing_skills_not_strings numeric_skills_lib example_job
           example_resume example_world (JDict example_score)
           [(lit "missing_skills", JList [JInt 1; JInt 2])]
           [JInt 1; JInt 2]);
    reflexivity.
Defined.

(** X7 at the example service, whose missing skills are AWS and Docker. *)
Lemma analyze_missing_skills_rendered_witness :
  sent (snd (analyze example_lib example_job example_resume example_world))
  = sent example_world
    ++ [score_request example_job example_resume;
        skills_request example_job example_resume;
        recommend_request example_job example_resume
          (join (lit ", ") [lit "AWS"; lit "Docker"])].
Proof.
  apply (analyze_missing_skills_rendered example_lib example_job example_resume
           example_world example_score example_skills [lit "AWS"; lit "Docker"]
           example_recommendations);
    try reflexivity.
  discriminate.
Defined.

(** X9 at a path that does not exist. *)
Lemma extract_errors_classified_witness :
  (exists_ (lit "ghost.pdf") example_world = false
   /\ mkExn FileNotFoundError (lit "File not found: " ++ lit "ghost.pdf")
      = mkExn FileNotFoundError (lit "File not found: " ++ lit "ghost.pdf")
   /\ example_world = example_world)
  \/ (exists_ (lit "ghost.pdf") example_world = true
      /\ exn_cls (mkExn FileNotFoundError (lit "File not found: " ++ lit "ghost.pdf"))
         = Exception_
      /\ (exn_str (mkExn FileNotFoundError (lit "File not found: " ++ lit "ghost.pdf"))
          = legacy_doc_message
          \/ exists cause,
               exn_str (mkExn FileNotFoundError
                          (lit "File not found: " ++ lit "ghost.pdf"))
               = lit "Error reading file " ++ lit "ghost.pdf" ++ lit ": " ++ cause)).
Proof.
  apply (extract_errors_classified example_lib (lit "ghost.pdf") example_world
           example_world).
  reflexivity.
Defined.

(** X11 at a Markdown file. *)
Lemma unknown_extension_witness :
  extract_text_from_file example_lib (lit "notes.md") office_world
  = (Ok (universal_newlines (lit "# Python")),
     mkWorld office_fs [] [(ReadText "utf-8", lit "notes.md")]).
Proof.
  apply (unknown_extension_read_as_text example_lib (lit "notes.md") office_world
           (bytes_of "# Python") (lit "# Python"));
    try reflexivity; vm_compute; discriminate.
Defined.

(** X12 at the PDF whose second page makes pdfplumber raise: the first
    page comes twice. *)
Lemma pdf_fallback_witness :
  _extract_from_pdf flaky_pdf_lib (lit "cv.pdf") office_world
  = (Ok ((lit "Alice" ++ [NL]) ++ (lit "Alice" ++ [NL])),
     mkWorld office_fs [] [(Pdfplumber, lit "cv.pdf"); (PyPDF2, lit "cv.pdf")]).
Proof.
  apply (pdf_fallback_keeps_partial_text flaky_pdf_lib (lit "cv.pdf") office_world
           (bytes_of "%PDF-1.4")
           [inr (Some (lit "Alice")); inl (mkExn LibraryError (lit "bad page"))]
           [inr (lit "Alice")]
           (lit "Alice" ++ [NL]) (lit "Alice" ++ [NL])
           (Some (mkExn LibraryError (lit "bad page"))));
    try reflexivity.
  left. discriminate.
Defined.

(** X13 at a Word file whose paragraphs and cells are blank. *)
Lemma analyze_rejects_blank_docx_witness :
  extract_text_from_file flaky_pdf_lib (lit "empty.docx") office_world
  = (Ok [], mkWorld office_fs [] [(Docx, lit "empty.docx")])
  /\ analyze flaky_pdf_lib (lit "empty.docx") example_resume office_world
     = (Raise (mkExn ValueError (lit "Job description cannot be empty")),
        mkWorld office_fs [] [(Docx, lit "empty.docx")]).
Proof.
  apply (analyze_rejects_blank_docx flaky_pdf_lib (lit "empty.docx")
           example_resume office_world (bytes_of "PK")
           (mkDocx [lit "  "; []] [[[lit " "]]]));
    reflexivity.
Defined.

(** X15 at a PDF whose name ends in capitals. *)
Lemma parse_contents_unsupported_witness :
  parse_contents example_lib true example_upload (lit "cv.PDF") example_world
  = (Ok None, example_world).
Proof.
  apply (parse_contents_unsupported_name example_lib true example_upload
           (lit "cv.PDF") example_world);
    reflexivity.
Defined.

(** X16 at the example upload, named as a text file. *)
Lemma parse_contents_txt_witness :
  parse_contents example_lib true example_upload (lit "cv.txt") example_world
  = (Ok (Some (lit "%PDF-1.4")), example_world).
Proof.
  apply (parse_contents_txt example_lib true example_upload (lit "cv.txt")
           (lit "data:application/pdf;base64") (lit "JVBERi0xLjQ=")
           (bytes_of "%PDF-1.4") example_world);
    reflexivity.
Defined.

(** X17 at the example upload, named as a Word file. *)
Lemma parse_contents_docx_witness :
  exists w2,
    parse_contents example_lib true example_upload (lit "cv.docx") example_world
    = (Ok (Some (docx_text_spec alice_doc)), w2)
    /\ fs w2 !! (lit "./tmp/" ++ lit "cv.docx") = None.
Proof.
  apply (parse_contents_docx example_lib example_upload (lit "cv.docx")
           (lit "data:application/pdf;base64") (lit "JVBERi0xLjQ=")
           (bytes_of "%PDF-1.4") example_world
           (mkWorld (<[lit "./tmp/" ++ lit "cv.docx" := File (bytes_of "%PDF-1.4")]>
                       example_fs) [] []));
    reflexivity.
Defined.

(** X18 at the filesystem without [./tmp]. *)
Lemma parse_contents_without_tmp_witness :
  parse_contents example_lib true example_upload (lit "cv.pdf") office_world
  = (Ok None, office_world).
Proof.
  apply (parse_contents_without_tmp example_lib true example_upload
           (lit "cv.pdf") office_world);
    try reflexivity.
  vm_compute. discriminate.
Defined.

(** X20 at an upload without a file name, with a text typed as well. *)
Lemma handle_job_input_unsupported_witness :
  handle_job_input example_lib unit true (Some example_upload)
    (Some example_job) None example_world
  = (Ok (Alert ([10007] ++ lit " Failed to load file") "danger", None),
     example_world).
Proof.
  apply (handle_job_input_unsupported example_lib unit true example_upload
           (Some example_job) None example_world);
    try reflexivity.
  vm_compute. discriminate.
Defined.

(** X22 at a job description of three spaces. *)
Lemma analyze_resume_blank_job_witness :
  analyze_resume example_lib unit (fun _ => inr tt) true (Some 1%nat)
    (Some (lit "   ")) (Some example_resume) example_world
  = (Ok (Return
           (Alert ([10060] ++ lit " Error during analysis: "
                   ++ lit "Job description cannot be empty") "danger",
            None)),
     example_world).
Proof.
  apply (analyze_resume_blank_job example_lib unit (fun _ => inr tt) 0
           (lit "   ") example_resume example_world);
    try reflexivity; vm_compute; discriminate.
Defined.

(** X24 at the example service, whose scoring reply has the score only. *)
Lemma unknown_match_is_secondary_witness :
  exists r w' v,
    analyze example_lib example_job example_resume example_world = (Ok r, w')
    /\ r !! "overall_match" = Some v
    /\ get_match_color v = inr (lit "secondary").
Proof.
  apply (unknown_match_is_secondary example_lib example_job example_resume
           example_world example_score example_skills (lit "AWS, Docker")
           example_recommendations);
    reflexivity.
Defined.

(* ===================================================================== *)
(** ** The resume input *)
(* ===================================================================== *)

Section ResumeInput.

Variable lib : Libs.
Variable layout : Type.

(** X25.  [handle_resume_input] never raises and sends no request; what
    it puts into the store is [None] or a text that is not empty.  The
    upload is parsed on the upload tab only: on every other tab, and
    without an upload, nothing is parsed and the world stays as it is;
    the outcome is then the typed text when the text tab is active and a
    text was typed, and [no_update] with an empty store otherwise.  On
    the upload tab with an upload, the typed text plays no part. *)
Theorem handle_resume_input_store (analyzer : bool)
    (upload_contents text_value filename active_tab : option pystr) (w : world) :
  (exists c content w',
      handle_resume_input lib layout analyzer upload_contents text_value
        filename active_tab w = (Ok (c, content), w')
      /\ sent w' = sent w
      /\ (content = None \/ str_truthy content = true))
  /\ (active_tab <> Some (lit "resume-upload-tab")
      \/ str_truthy upload_contents = false ->
      handle_resume_input lib layout analyzer upload_contents text_value
        filename active_tab w
      = (Ok (if bool_decide (active_tab = Some (lit "resume-text-tab"))
                && str_truthy text_value
             then (Alert ([10003] ++ lit " Text loaded") "success", text_value)
             else (no_update, None)),
         w))
  /\ (active_tab = Some (lit "resume-upload-tab") ->
      str_truthy upload_contents = true ->
      forall text_value',
        handle_resume_input lib layout analyzer upload_contents text_value
          filename active_tab w
        = handle_resume_input lib layout analyzer upload_contents text_value'
            filename active_tab w).
Proof.
  unfold handle_resume_input. split; [|split].
  - destruct (bool_decide (active_tab = Some (lit "resume-upload-tab"))
              && str_truthy upload_contents).
    + unfold bind.
      assert (Hp : exists r w',
                 parse_contents_named lib analyzer (default [] upload_contents)
                   filename w = (Ok r, w') /\ sent w' = sent w).
      { unfold parse_contents_named. destruct filename as [f|].
        - destruct (parse_contents_frame lib analyzer
                      (default [] upload_contents) f w)
            as (r & w' & Hr & Hs & _). eauto.
        - unfold ret. eauto. }
      destruct Hp as (r & w' & -> & Hs).
      destruct (str_truthy r) eqn:Hr; unfold ret; do 3 eexists;
        (split; [reflexivity|]); (split; [exact Hs|]); auto.
    + destruct (bool_decide (active_tab = Some (lit "resume-text-tab"))
                && str_truthy text_value) eqn:Ht;
        unfold ret; do 3 eexists;
        (split; [reflexivity|]); (split; [reflexivity|]); [|now left].
      apply andb_true_iff in Ht as [_ Ht]. now right.
  - intros Nu.
    assert (Hu : bool_decide (active_tab = Some (lit "resume-upload-tab"))
                 && str_truthy upload_contents = false).
    { destruct Nu as [Nu|Nu].
      - now rewrite (bool_decide_eq_false_2 _ Nu).
      - rewrite Nu. apply andb_false_r. }
    rewrite Hu.
    destruct (bool_decide (active_tab = Some (lit "resume-text-tab"))
              && str_truthy text_value); reflexivity.
  - intros Hu Hc text_value'.
    rewrite (bool_decide_eq_true_2 _ Hu), Hc. reflexivity.
Qed.

End ResumeInput.

(* ===================================================================== *)
(** ** The PDF rule at concrete files *)
(* ===================================================================== *)

(** C6 at three PDF files: one with text, where pdfplumber's text is
    returned and PyPDF2 is not tried; one where pdfplumber finds an empty
    page and PyPDF2 finds the text; and a scanned one, where neither
    finds text. *)
Lemma pdf_extraction_witness :
  _extract_from_pdf text_pdf_lib (lit "cv.pdf") office_world
  = (Ok (lit "Alice" ++ [NL]),
     mkWorld office_fs [] [(Pdfplumber, lit "cv.pdf")])
  /\ _extract_from_pdf second_reader_lib (lit "cv.pdf") office_world
     = (Ok (lit "Alice" ++ [NL]),
        mkWorld office_fs [] [(Pdfplumber, lit "cv.pdf"); (PyPDF2, lit "cv.pdf")])
  /\ _extract_from_pdf example_lib (lit "cv.pdf") office_world
     = (Raise (mkExn Exception_
                 (lit "Failed to extract text from PDF: "
                  ++ lit "No text could be extracted from PDF")),
        mkWorld office_fs [] [(Pdfplumber, lit "cv.pdf"); (PyPDF2, lit "cv.pdf")]).
Proof.
  split; [|split].
  - apply (proj1 (pdf_extraction_order text_pdf_lib (lit "cv.pdf") office_world
                    (bytes_of "%PDF-1.4") eq_refl eq_refl)
             [Some (lit "Alice")]);
      reflexivity.
  - apply (proj1 (proj2 (pdf_extraction_order second_reader_lib (lit "cv.pdf")
                           office_world (bytes_of "%PDF-1.4") eq_refl eq_refl))
             [] [lit "Alice"]);
      try reflexivity.
    left. exists [Some []]. repeat split.
  - apply (proj1 (proj2 (proj2 (pdf_extraction_order example_lib (lit "cv.pdf")
                                  office_world (bytes_of "%PDF-1.4")
                                  eq_refl eq_refl)))
             [] [[]]);
      try reflexivity.
    left. exists [None]. repeat split.
Defined.
